(** * Bingo room server (src/server.js): model and verified properties

    The server keeps every room in one in-memory [Map] and reacts to six
    socket events.  The handlers run to completion one after the other, so the
    server is modelled as a function from an action and a registry to the new
    registry and the outcome seen by the caller.  Broadcasts ([io.to(..).emit])
    and socket-room membership belong to the transport layer and are left out;
    the acknowledgement passed to [cb] is kept.

    [Math.random] is the only source of non-determinism.  Each handler takes
    the future results of the random expressions it evaluates as an argument:
    a stream of raw draws for [Math.floor(Math.random() * n)], and the string
    produced by [Math.random().toString(36).substring(2, 8)] for a room code. *)

From Stdlib Require Import ZArith List Lia.
From stdpp Require Import base tactics option list gmap strings.

Local Open Scope string_scope.
Local Open Scope Z_scope.

(** ** JavaScript values used by the server *)

(** A call either completes with a value or throws (here always a
    [TypeError] from reading a property of [undefined] or [null]). *)
Inductive result (A : Type) : Type :=
| Ok (a : A)
| Throw.
Arguments Ok {A} a.
Arguments Throw {A}.

#[export] Instance result_ret : MRet result := λ A a, Ok a.

#[export] Instance result_bind : MBind result := λ A B k m,
  match m with
  | Ok a => k a
  | Throw => Throw
  end.

(** [{ number: num, markedBy: null }].  [number] is [None] when the value is
    [undefined]/[null]; [markedBy] is [None] for [null], otherwise the string
    stored there (a socket id or the literal ["free"]). *)
Record Cell : Type := mkCell {
  number : option Z;
  markedBy : option string;
}.

(** An array slot holds [null] ([None]) or a cell object. *)
Abbreviation Slot := (option Cell).

(** A board is an array of rows, each an array of slots. *)
Abbreviation Board := (list (list Slot)).

Record Player : Type := mkPlayer {
  player_id : string;
  name : string;
  board : Board;
}.

Record Game : Type := mkGame {
  game_id : string;
  hostId : string;
  players : gmap string Player;
  calledNumbers : list Z;
  started : bool;
  winnerId : option string;
}.

(** The registry [const games = new Map()] is a [gmap string Game]. *)

(** JavaScript truthiness of a [markedBy] value: [null] and the empty string
    are falsy, every other string is truthy. *)
Definition truthy (m : option string) : bool :=
  match m with
  | None => false
  | Some s => bool_decide (s ≠ "")
  end.

(** [arr[i]] for an integer index: [None] stands for [undefined]. *)
Definition index {A : Type} (arr : list A) (i : Z) : option A :=
  if bool_decide (0 ≤ i) then arr !! Z.to_nat i else None.

(** ** Randomness *)

(** The stream of future raw draws of [Math.random()]. *)
Definition Rng : Type := nat → nat.

(** [Math.floor(Math.random() * n)], together with the rest of the stream.
    The floating-point product is not modelled: the result is the residue of
    the raw draw modulo [n], so it is always an index below [n] and every
    index below [n] is the result of some draw (and it is 0 when [n] is 0). *)
Definition random_below (n : nat) (g : Rng) : nat * Rng :=
  (match n with
   | O => O
   | S _ => (g O mod n)%nat
   end, λ i, g (S i)).

(** ** generateBoard *)

Definition ranges : list (Z * Z) :=
  [(1, 15); (16, 30); (31, 45); (46, 60); (61, 75)].

(** [Array.from({ length: 5 }, () => Array(5).fill(null))] *)
Definition empty_board : Board := replicate 5 (replicate 5 None).

(** [Array.from({ length: max - min + 1 }, (_, i) => i + min)] *)
Definition range_numbers (min max : Z) : list Z :=
  (λ i : nat, Z.of_nat i + min) <$> seq 0 (Z.to_nat (max - min + 1)).

(** [numbers.splice(i, 1)[0]]: the removed element ([None] for [undefined]
    when [i] is out of range) and the array that remains. *)
Definition splice1 (i : nat) (numbers : list Z) : option Z * list Z :=
  (numbers !! i, delete i numbers).

(** [board[row][col] = v] for positions that exist (the only ones the
    generator and the mark handler write to). *)
Definition set_cell (b : Board) (row col : nat) (v : Slot) : Board :=
  match b !! row with
  | Some r => <[row := <[col := v]> r]> b
  | None => b
  end.

(** [board[row][col]] for natural indices, with [undefined] and [null]
    both read as [None]. *)
Definition get_cell (b : Board) (row col : nat) : option Cell :=
  r ← b !! row; mjoin (r !! col).

(** The inner loop [for (let row = 0; row < 5; row++)] of one column. *)
Fixpoint fill_rows (col : nat) (rows : list nat) (numbers : list Z)
    (b : Board) (g : Rng) : Board * Rng :=
  match rows with
  | [] => (b, g)
  | row :: rows' =>
      let '(k, g') := random_below (length numbers) g in
      let '(num, numbers') := splice1 k numbers in
      fill_rows col rows' numbers'
        (set_cell b row col (Some (mkCell num None))) g'
  end.

(** The outer loop [for (let col = 0; col < 5; col++)].  The [None] branch
    is never taken: the columns are 0..4 and [ranges] has five entries. *)
Fixpoint fill_cols (cols : list nat) (b : Board) (g : Rng) : Board * Rng :=
  match cols with
  | [] => (b, g)
  | col :: cols' =>
      match ranges !! col with
      | Some (min, max) =>
          let '(b', g') := fill_rows col (seq 0 5) (range_numbers min max) b g in
          fill_cols cols' b' g'
      | None => (b, g)
      end
  end.

(** [board[2][2].markedBy = "free"].  The [None] branch is never taken:
    after the loops the centre holds a cell object. *)
Definition mark_free (b : Board) : Board :=
  match get_cell b 2 2 with
  | Some c => set_cell b 2 2 (Some (mkCell (number c) (Some "free")))
  | None => b
  end.

Definition generateBoard (g : Rng) : Board * Rng :=
  let '(b, g') := fill_cols (seq 0 5) empty_board g in
  (mark_free b, g').

(** The value of [num] in the [(i+1)]-th pass of the row loop of one column,
    whose pool is [numbers] at the start of the loop and whose draws are [g]:
    every earlier pass has removed the element it drew from the pool. *)
Fixpoint draw_nth (i : nat) (numbers : list Z) (g : Rng) {struct i}
    : option Z :=
  match i with
  | O => numbers !! (random_below (length numbers) g).1
  | S i' =>
      draw_nth i' (delete (random_below (length numbers) g).1 numbers)
        (random_below (length numbers) g).2
  end.

(** ** Acknowledgements and record updates *)

(** The object passed to the callback [cb]. *)
Inductive Ack : Type :=
| AckOk                      (* { ok: true } *)
| AckRoom (roomId : string)  (* { ok: true, roomId } *)
| AckGame (game : Game)      (* { ok: true, game } *)
| AckNumber (num : Z)        (* { ok: true, number } *)
| AckError (error : string)  (* { ok: false, error } *)
| NoAck.                     (* the disconnect event has no callback *)

Definition set_players (game : Game) (ps : gmap string Player) : Game :=
  mkGame (game_id game) (hostId game) ps (calledNumbers game)
    (started game) (winnerId game).

Definition set_calledNumbers (game : Game) (ns : list Z) : Game :=
  mkGame (game_id game) (hostId game) (players game) ns
    (started game) (winnerId game).

Definition set_started (game : Game) (b : bool) : Game :=
  mkGame (game_id game) (hostId game) (players game) (calledNumbers game)
    b (winnerId game).

Definition set_winnerId (game : Game) (w : option string) : Game :=
  mkGame (game_id game) (hostId game) (players game) (calledNumbers game)
    (started game) w.

Definition set_board (p : Player) (b : Board) : Player :=
  mkPlayer (player_id p) (name p) b.

Definition set_markedBy (c : Cell) (m : option string) : Cell :=
  mkCell (number c) m.

(** ** The socket handlers

    Every handler takes the id of the calling socket [sid] first, then the
    fields of the payload, then the registry. *)

(** [socket.on("create-room", ...)]: [roomId] is the string the random
    expression produced, [g] feeds the board generator. *)
Definition create_room (sid name roomId : string) (g : Rng)
    (games : gmap string Game) : gmap string Game * result Ack :=
  let player := mkPlayer sid name (generateBoard g).1 in
  let game := mkGame roomId sid {[ sid := player ]} [] false None in
  (<[roomId := game]> games, Ok (AckRoom roomId)).

(** [socket.on("join-room", ...)] *)
Definition join_room (sid roomId name : string) (g : Rng)
    (games : gmap string Game) : gmap string Game * result Ack :=
  match games !! roomId with
  | None => (games, Ok (AckError "Room not found"))
  | Some game =>
      if started game then (games, Ok (AckError "Game already started"))
      else
        let player := mkPlayer sid name (generateBoard g).1 in
        let game' := set_players game (<[sid := player]> (players game)) in
        (<[roomId := game']> games, Ok (AckGame game'))
  end.

(** [socket.on("start-game", ...)] *)
Definition start_game (sid roomId : string)
    (games : gmap string Game) : gmap string Game * result Ack :=
  match games !! roomId with
  | None => (games, Ok (AckError "Room not found"))
  | Some game =>
      if bool_decide (sid ≠ hostId game)
      then (games, Ok (AckError "Only host can start"))
      else
        (<[roomId := set_calledNumbers (set_started game true) []]> games,
         Ok AckOk)
  end.

(** [Array.from({ length: 75 }, (_, i) => i + 1).filter(
       (num) => !game.calledNumbers.includes(num))] *)
Definition availableNumbers (game : Game) : list Z :=
  filter (λ num, num ∉ calledNumbers game)
    ((λ i : nat, Z.of_nat i + 1) <$> seq 0 75).

(** [socket.on("call-number", ...)].  The last branch is never taken:
    [random_below] returns an index below the length of a non-empty array. *)
Definition call_number (sid roomId : string) (g : Rng)
    (games : gmap string Game) : gmap string Game * result Ack :=
  match games !! roomId with
  | None => (games, Ok (AckError "Room not found"))
  | Some game =>
      if bool_decide (sid ≠ hostId game)
      then (games, Ok (AckError "Only host can call numbers"))
      else
        let available := availableNumbers game in
        if bool_decide (length available = 0%nat)
        then (games, Ok (AckError "All numbers called"))
        else
          match available !! (random_below (length available) g).1 with
          | Some num =>
              (<[roomId := set_calledNumbers game (calledNumbers game ++ [num])]>
                 games,
               Ok (AckNumber num))
          | None => (games, Throw)
          end
  end.

(** [socket.on("mark-cell", ...)].  [player.board[row]] is [undefined] when
    [row] is not an index of the board, and reading [[col]] of it throws;
    [cell] is falsy when the row exists and [col] is not an index of it. *)
Definition mark_cell (sid roomId : string) (row col : Z)
    (games : gmap string Game) : gmap string Game * result Ack :=
  match games !! roomId with
  | None => (games, Ok (AckError "Room not found"))
  | Some game =>
      match players game !! sid with
      | None => (games, Ok (AckError "Not in game"))
      | Some player =>
          match index (board player) row with
          | None => (games, Throw)
          | Some r =>
              match mjoin (index r col) with
              | None => (games, Ok (AckError "Invalid cell"))
              | Some cell =>
                  let cell' :=
                    set_markedBy cell
                      (if truthy (markedBy cell) then None else Some sid) in
                  let board' :=
                    set_cell (board player) (Z.to_nat row) (Z.to_nat col)
                      (Some cell') in
                  let game' :=
                    set_players game
                      (<[sid := set_board player board']> (players game)) in
                  (<[roomId := game']> games, Ok AckOk)
              end
          end
      end
  end.

(** [c.markedBy === socket.id || c.markedBy === "free"] *)
Definition marked_for (sid : string) (c : Cell) : bool :=
  bool_decide (markedBy c = Some sid) || bool_decide (markedBy c = Some "free").

(** [cells.every(...)]: stops at the first cell that fails the test, throws
    when it reaches a slot that is [null] or [undefined]. *)
Fixpoint checkLine (sid : string) (cells : list Slot) : result bool :=
  match cells with
  | [] => Ok true
  | None :: _ => Throw
  | Some c :: rest => if marked_for sid c then checkLine sid rest else Ok false
  end.

(** [arr.some(f)]: stops at the first element for which [f] is true. *)
Fixpoint some {A : Type} (f : A → result bool) (arr : list A) : result bool :=
  match arr with
  | [] => Ok false
  | x :: rest => b ← f x; if b : bool then Ok true else some f rest
  end.

(** [arr.map(f)] for an [f] that may throw. *)
Fixpoint map_result {A B : Type} (f : A → result B) (arr : list A)
    : result (list B) :=
  match arr with
  | [] => Ok []
  | x :: rest => y ← f x; ys ← map_result f rest; Ok (y :: ys)
  end.

(** [a || b] on booleans, [b] evaluated only when [a] is false. *)
Definition or_else (a b : result bool) : result bool :=
  x ← a; if x : bool then Ok true else b.

(** [board[i][j]] as an expression: throws when [board[i]] is [undefined]. *)
Definition read_cell (b : Board) (i j : nat) : result Slot :=
  match b !! i with
  | None => Throw
  | Some r => Ok (mjoin (r !! j))
  end.

(** [board.map((r) => r[c])] *)
Definition column (b : Board) (c : nat) : list Slot :=
  (λ r : list Slot, mjoin (r !! c)) <$> b.

Definition five : list nat := [0; 1; 2; 3; 4]%nat.

(** The expression bound to [hasBingo] in the claim-bingo handler. *)
Definition hasBingo (sid : string) (b : Board) : result bool :=
  or_else (some (checkLine sid) b)
    (or_else (some (λ c, checkLine sid (column b c)) five)
       (or_else (cells ← map_result (λ i, read_cell b i i) five;
                 checkLine sid cells)
                (cells ← map_result (λ i, read_cell b i (4 - i)%nat) five;
                 checkLine sid cells))).

(** [socket.on("claim-bingo", ...)] *)
Definition claim_bingo (sid roomId : string)
    (games : gmap string Game) : gmap string Game * result Ack :=
  match games !! roomId with
  | None => (games, Ok (AckError "Room not found"))
  | Some game =>
      match players game !! sid with
      | None => (games, Ok (AckError "Not in game"))
      | Some player =>
          match hasBingo sid (board player) with
          | Throw => (games, Throw)
          | Ok true =>
              (<[roomId := set_winnerId game (Some sid)]> games, Ok AckOk)
          | Ok false => (games, Ok (AckError "Not a valid bingo"))
          end
      end
  end.

(** [socket.on("disconnect", ...)]: the player is deleted from every room
    that has it, and a room left without players is deleted. *)
Definition disconnect (sid : string)
    (games : gmap string Game) : gmap string Game * result Ack :=
  (omap (λ game,
           match players game !! sid with
           | Some _ =>
               let ps := delete sid (players game) in
               if bool_decide (size ps = 0%nat) then None
               else Some (set_players game ps)
           | None => Some game
           end) games,
   Ok NoAck).

(** ** The server as a transition function *)

Inductive Action : Type :=
| CreateRoom (sid name roomId : string) (g : Rng)
| JoinRoom (sid roomId name : string) (g : Rng)
| StartGame (sid roomId : string)
| CallNumber (sid roomId : string) (g : Rng)
| MarkCell (sid roomId : string) (row col : Z)
| ClaimBingo (sid roomId : string)
| Disconnect (sid : string).

Definition handle (a : Action) (games : gmap string Game)
    : gmap string Game * result Ack :=
  match a with
  | CreateRoom sid name roomId g => create_room sid name roomId g games
  | JoinRoom sid roomId name g => join_room sid roomId name g games
  | StartGame sid roomId => start_game sid roomId games
  | CallNumber sid roomId g => call_number sid roomId g games
  | MarkCell sid roomId row col => mark_cell sid roomId row col games
  | ClaimBingo sid roomId => claim_bingo sid roomId games
  | Disconnect sid => disconnect sid games
  end.

(** Runs the actions in order.  An uncaught exception ends the process: the
    run stops there and reports the registry as it was at the throw. *)
Fixpoint run (acts : list Action) (games : gmap string Game)
    : gmap string Game * result (list Ack) :=
  match acts with
  | [] => (games, Ok [])
  | a :: rest =>
      match handle a games with
      | (games', Ok ack) =>
          let '(games'', r) := run rest games' in
          (games'', acks ← r; Ok (ack :: acks))
      | (games', Throw) => (games', Throw)
      end
  end.

(** The run reached its end: no handler threw. *)
Definition completes {A : Type} (r : result A) : Prop :=
  match r with
  | Ok _ => True
  | Throw => False
  end.

(** The registries the server can be in: those reached from the empty map
    by handlers that returned. *)
Inductive reachable : gmap string Game → Prop :=
| reachable_init : reachable ∅
| reachable_step a games games' ack :
    reachable games →
    handle a games = (games', Ok ack) →
    reachable games'.

(** ** Reading boards *)

(** The [number] stored at a position, [None] when there is none. *)
Definition cell_number (b : Board) (r c : nat) : option Z :=
  cell ← get_cell b r c; number cell.

(** The numbers of column [c], top to bottom. *)
Definition column_numbers (b : Board) (c : nat) : list (option Z) :=
  (λ r, cell_number b r c) <$> seq 0 5.

(** Five rows of five slots. *)
Definition shape5 (b : Board) : Prop :=
  length b = 5%nat ∧ Forall (λ r : list Slot, length r = 5%nat) b.

(** Five rows of five cell objects: what [generateBoard] returns and what
    [mark-cell] keeps. *)
Definition board_wf (b : Board) : Prop :=
  length b = 5%nat ∧
  Forall (λ r : list Slot, length r = 5%nat ∧ Forall is_Some r) b.

(** A board whose slot [(r, c)] holds the cell [f r c], for r, c in 0..4. *)
Definition grid (f : nat → nat → Cell) : Board :=
  (λ r, Some <$> (f r <$> seq 0 5)) <$> seq 0 5.

(** The cell object at a position of a full board. *)
Definition cell_at (b : Board) (r c : nat) : Cell :=
  default (mkCell None None) (get_cell b r c).

(** The value of [hasBingo] on the board [grid f], as a boolean formula. *)
Definition bingo_formula (sid : string) (f : nat → nat → Cell) : bool :=
  existsb (λ r, forallb (marked_for sid) (f r <$> seq 0 5)) (seq 0 5)
  || (existsb (λ c, forallb (marked_for sid) ((λ r, f r c) <$> seq 0 5)) five
      || (forallb (marked_for sid) ((λ i, f i i) <$> five)
          || forallb (marked_for sid) ((λ i, f i (4 - i)%nat) <$> five))).

(** ** Winning lines, as the rules state them *)

(** The cell at [(r, c)] counts for [sid]: it is marked by [sid] or free. *)
Definition counts_for (sid : string) (b : Board) (r c : nat) : Prop :=
  ∃ cell, get_cell b r c = Some cell ∧
          (markedBy cell = Some sid ∨ markedBy cell = Some "free").

Definition row_complete (sid : string) (b : Board) (r : nat) : Prop :=
  ∀ c, (c < 5)%nat → counts_for sid b r c.

Definition column_complete (sid : string) (b : Board) (c : nat) : Prop :=
  ∀ r, (r < 5)%nat → counts_for sid b r c.

Definition main_diagonal_complete (sid : string) (b : Board) : Prop :=
  ∀ r c, (r < 5)%nat → (c < 5)%nat → r = c → counts_for sid b r c.

Definition anti_diagonal_complete (sid : string) (b : Board) : Prop :=
  ∀ r c, (r < 5)%nat → (c < 5)%nat → (r + c = 4)%nat → counts_for sid b r c.

Definition wins (sid : string) (b : Board) : Prop :=
  (∃ r, (r < 5)%nat ∧ row_complete sid b r) ∨
  (∃ c, (c < 5)%nat ∧ column_complete sid b c) ∨
  main_diagonal_complete sid b ∨
  anti_diagonal_complete sid b.

(** ** Invariants of a room *)

(** [calledNumbers] holds distinct numbers of 1..75. *)
Definition called_ok (game : Game) : Prop :=
  NoDup (calledNumbers game) ∧
  Forall (λ n, 1 ≤ n ≤ 75) (calledNumbers game).

Definition game_wf (game : Game) : Prop :=
  called_ok game ∧
  ∀ sid player, players game !! sid = Some player → board_wf (board player).

Definition games_wf (games : gmap string Game) : Prop :=
  ∀ roomId game, games !! roomId = Some game → game_wf game.

(** ** Sequences of call-number events *)

(** The numbers handed out by the acknowledgements of a run. *)
Definition returned_numbers (acks : list Ack) : list Z :=
  omap (λ a, match a with AckNumber n => Some n | _ => None end) acks.

(** Call-number events on one room, each with its caller and its draws. *)
Definition call_actions (roomId : string) (calls : list (string * Rng))
    : list Action :=
  (λ call, CallNumber call.1 roomId call.2) <$> calls.

(** The registry with the [started] flag of one room forced to [flag]. *)
Definition with_started (flag : bool) (roomId : string)
    (games : gmap string Game) : gmap string Game :=
  alter (λ game, set_started game flag) roomId games.

(** ** Reading the registry *)

(** The board of player [sid] in room [roomId]. *)
Definition board_of (games : gmap string Game) (roomId sid : string)
    : option Board :=
  game ← games !! roomId; player ← players game !! sid; Some (board player).

(** The [markedBy] of one cell of that board. *)
Definition marked_at (games : gmap string Game) (roomId sid : string)
    (r c : nat) : option (option string) :=
  b ← board_of games roomId sid; cell ← get_cell b r c; Some (markedBy cell).

(** The winner recorded in room [roomId]. *)
Definition winner_of (games : gmap string Game) (roomId : string)
    : option (option string) :=
  winnerId <$> games !! roomId.

(** ** Sample inputs *)

Definition rng0 : Rng := λ i, (i * 7 + 3)%nat.
Definition rng1 : Rng := λ i, (i * 5 + 1)%nat.

(** Alice opens a room and Bob joins it; the game is not started. *)
Definition lobby : gmap string Game :=
  (run [CreateRoom "alice" "Alice" "k3x9qa" rng0;
        JoinRoom "bob" "k3x9qa" "Bob" rng1] ∅).1.

Definition no_game : Game := mkGame "" "" ∅ [] false None.
Definition no_player : Player := mkPlayer "" "" [].

Definition lobby_game : Game := default no_game (lobby !! "k3x9qa").
Definition lobby_alice : Player :=
  default no_player (players lobby_game !! "alice").
Definition lobby_bob : Player :=
  default no_player (players lobby_game !! "bob").

(** [MarkCell] events of [sid] on the five cells of row [r]. *)
Definition mark_row (sid roomId : string) (r : Z) : list Action :=
  (λ c : nat, MarkCell sid roomId r (Z.of_nat c)) <$> seq 0 5.

(** Alice, the host, calls a number 76 times in a row. *)
Definition seventy_six_calls : list Action :=
  call_actions "k3x9qa" (replicate 76 ("alice", rng0)).

(** Both players have marked their row 0 and Alice has claimed. *)
Definition alice_won : gmap string Game :=
  (run (mark_row "alice" "k3x9qa" 0 ++ mark_row "bob" "k3x9qa" 0 ++
        [ClaimBingo "alice" "k3x9qa"]) lobby).1.

(** ** Events and the rooms they address *)

(** The room an event names in its payload; create-room draws its own code
    and disconnect carries none. *)
Definition action_room (a : Action) : option string :=
  match a with
  | JoinRoom _ roomId _ _ => Some roomId
  | StartGame _ roomId => Some roomId
  | CallNumber _ roomId _ => Some roomId
  | MarkCell _ roomId _ _ => Some roomId
  | ClaimBingo _ roomId => Some roomId
  | CreateRoom _ _ _ _ => None
  | Disconnect _ => None
  end.

(** The numbers 1..75 in ascending order. *)
Definition all_numbers : list Z :=
  (λ i : nat, Z.of_nat i + 1) <$> seq 0 75.

(** The room as start-game by the host leaves it. *)
Definition started_game (game : Game) : Game :=
  mkGame (game_id game) (hostId game) (players game) [] true (winnerId game).

(** The room as join-room of [sid] with the draws [g] leaves it. *)
Definition joined_game (game : Game) (sid name : string) (g : Rng) : Game :=
  set_players game
    (<[sid := mkPlayer sid name (generateBoard g).1]> (players game)).

(** The registry with the recorded winner of one room forced to [w]. *)
Definition with_winner (w : option string) (roomId : string)
    (games : gmap string Game) : gmap string Game :=
  alter (λ game, set_winnerId game w) roomId games.

(** ** Invariants of the whole registry *)

(** Every column of the board holds five distinct numbers of its range. *)
Definition columns_ok (b : Board) : Prop :=
  ∀ c, (c < 5)%nat →
    ∃ ns, column_numbers b c = Some <$> ns ∧ length ns = 5%nat ∧ NoDup ns ∧
          Forall (λ n, 15 * Z.of_nat c + 1 ≤ n ≤ 15 * Z.of_nat c + 15) ns.

(** A room registered under [roomId]: it carries that id, has a player,
    distinct called numbers of 1..75, and every player is stored under its
    own id with a full board of valid columns. *)
Definition room_ok (roomId : string) (game : Game) : Prop :=
  game_id game = roomId ∧
  players game ≠ ∅ ∧
  called_ok game ∧
  ∀ sid p, players game !! sid = Some p →
    player_id p = sid ∧ board_wf (board p) ∧ columns_ok (board p).

Definition registry_ok (games : gmap string Game) : Prop :=
  ∀ roomId game, games !! roomId = Some game → room_ok roomId game.

(** ** Further sample inputs *)



(** The room of Alice and Bob next to a room opened by Carol. *)
Definition two_rooms : gmap string Game :=
  (run [CreateRoom "carol" "Carol" "zz81mw" rng1] lobby).1.

Definition carol_game : Game := default no_game (two_rooms !! "zz81mw").

#[export] Instance board_wf_dec (b : Board) : Decision (board_wf b).
Proof. unfold board_wf. apply _. Defined.

#[export] Instance called_ok_dec (game : Game) : Decision (called_ok game).
Proof. unfold called_ok. apply _. Defined.

(** Settles a closed decidable goal by evaluating its decision procedure. *)
Ltac by_computation :=
  match goal with
  | |- ?P => apply (bool_decide_unpack P); vm_compute; exact I
  end.

(** * Properties *)

(** ** Arrays of arrays *)

Section Grid.
Implicit Types (b : Board) (r c : nat) (v : Slot).

Lemma shape5_row b r :
  shape5 b → (r < 5)%nat → ∃ row, b !! r = Some row ∧ length row = 5%nat.
Proof.
  intros [Hlen Hrows] Hr.
  destruct (lookup_lt_is_Some_2 b r) as [row Hrow]; [lia|].
  exists row. split; [done|].
  by eapply Forall_lookup_1 in Hrows.
Qed.

Lemma shape5_set_cell b r c v : shape5 b → shape5 (set_cell b r c v).
Proof.
  intros [Hlen Hrows]. unfold set_cell.
  destruct (b !! r) as [row|] eqn:Hrow; [|done].
  split; [by rewrite length_insert|].
  apply Forall_insert; [done|]. simpl.
  rewrite length_insert. by eapply Forall_lookup_1 in Hrows.
Qed.

Lemma get_cell_set_cell_eq b r c v row :
  b !! r = Some row → (c < length row)%nat →
  get_cell (set_cell b r c v) r c = v.
Proof.
  intros Hrow Hc. unfold get_cell, set_cell. rewrite Hrow.
  rewrite list_lookup_insert_eq by (by eapply lookup_lt_Some).
  simpl. by rewrite list_lookup_insert_eq.
Qed.

Lemma get_cell_set_cell_ne b r c v r' c' :
  r ≠ r' ∨ c ≠ c' →
  get_cell (set_cell b r c v) r' c' = get_cell b r' c'.
Proof.
  intros Hne. unfold get_cell, set_cell.
  destruct (b !! r) as [row|] eqn:Hrow; [|done].
  destruct (decide (r = r')) as [<-|Hr].
  - rewrite list_lookup_insert_eq by (by eapply lookup_lt_Some).
    rewrite Hrow. simpl.
    rewrite list_lookup_insert_ne; [done|]. by destruct Hne.
  - by rewrite list_lookup_insert_ne.
Qed.

Lemma board_wf_shape5 b : board_wf b → shape5 b.
Proof.
  intros [Hlen Hrows]. split; [done|].
  eapply Forall_impl; [exact Hrows|]. by intros row [? _].
Qed.

Lemma board_wf_get_cell b r c :
  board_wf b → (r < 5)%nat → (c < 5)%nat → is_Some (get_cell b r c).
Proof.
  intros [Hlen Hrows] Hr Hc. unfold get_cell.
  destruct (lookup_lt_is_Some_2 b r) as [row Hrow]; [lia|].
  rewrite Hrow. simpl.
  eapply Forall_lookup_1 in Hrows as [Hl Hsome]; [|done].
  destruct (lookup_lt_is_Some_2 row c) as [s Hs]; [lia|].
  rewrite Hs. simpl. by eapply Forall_lookup_1 in Hsome.
Qed.

Lemma board_wf_intro b :
  shape5 b →
  (∀ r c, (r < 5)%nat → (c < 5)%nat → is_Some (get_cell b r c)) →
  board_wf b.
Proof.
  intros [Hlen Hrows] Hcells. split; [done|].
  apply Forall_lookup_2. intros r row Hrow.
  assert (length row = 5%nat) as Hl by (by eapply Forall_lookup_1 in Hrows).
  split; [done|].
  apply Forall_lookup_2. intros c s Hs.
  assert (r < 5)%nat as Hr by (apply lookup_lt_Some in Hrow; lia).
  assert (c < 5)%nat as Hc by (apply lookup_lt_Some in Hs; lia).
  specialize (Hcells r c Hr Hc). unfold get_cell in Hcells.
  rewrite Hrow in Hcells. simpl in Hcells. rewrite Hs in Hcells.
  simpl in Hcells. by destruct s; [eexists|destruct Hcells].
Qed.
End Grid.

(** ** The board generator *)

Section Generator.
Implicit Types (b : Board) (g : Rng) (numbers picks : list Z).

Lemma random_below_lt n g : (0 < n)%nat → ((random_below n g).1 < n)%nat.
Proof.
  intros Hn. destruct n as [|n]; [lia|].
  unfold random_below. cbn [fst].
  apply Nat.mod_upper_bound. lia.
Qed.

(** Removing the element at index [k] of a duplicate-free array removes
    its value from the array. *)
Lemma NoDup_delete_lookup numbers k x :
  NoDup numbers → numbers !! k = Some x → x ∉ delete k numbers.
Proof.
  intros Hnd Hk Hin.
  apply list_elem_of_lookup in Hin as [j Hj].
  destruct (decide (j < k)%nat) as [Hlt|Hge].
  - rewrite list_lookup_delete_lt in Hj by done.
    pose proof (NoDup_lookup _ _ _ _ Hnd Hj Hk). lia.
  - rewrite list_lookup_delete_ge in Hj by lia.
    pose proof (NoDup_lookup _ _ _ _ Hnd Hj Hk). lia.
Qed.

Lemma range_numbers_length min max :
  length (range_numbers min max) = Z.to_nat (max - min + 1).
Proof. unfold range_numbers. by rewrite length_fmap, length_seq. Qed.

Lemma range_numbers_NoDup min max : NoDup (range_numbers min max).
Proof.
  unfold range_numbers. apply NoDup_fmap_2; [|apply NoDup_seq].
  intros i j Hij. lia.
Qed.

Lemma range_numbers_bounds min max x :
  x ∈ range_numbers min max → min ≤ x ≤ max.
Proof.
  unfold range_numbers. intros Hx.
  apply list_elem_of_fmap in Hx as (i & -> & Hi).
  apply elem_of_seq in Hi. lia.
Qed.

Lemma fill_rows_cons col row rows numbers b g :
  fill_rows col (row :: rows) numbers b g
  = fill_rows col rows
      (delete (random_below (length numbers) g).1 numbers)
      (set_cell b row col
         (Some (mkCell (numbers !! (random_below (length numbers) g).1) None)))
      (random_below (length numbers) g).2.
Proof. reflexivity. Qed.

(** The loop over the rows of one column: it draws as many distinct
    numbers from the pool as there are rows, writes the i-th one to the
    i-th row of the column, and touches nothing else. *)
Lemma fill_rows_spec col rows : ∀ numbers b g,
  shape5 b → (col < 5)%nat →
  Forall (λ r, (r < 5)%nat) rows → NoDup rows →
  NoDup numbers → (length rows ≤ length numbers)%nat →
  ∃ picks,
    length picks = length rows ∧ NoDup picks ∧ picks ⊆ numbers ∧
    shape5 (fill_rows col rows numbers b g).1 ∧
    (∀ r c, c ≠ col ∨ r ∉ rows →
       get_cell (fill_rows col rows numbers b g).1 r c = get_cell b r c) ∧
    (∀ i r n, rows !! i = Some r → picks !! i = Some n →
       get_cell (fill_rows col rows numbers b g).1 r col
       = Some (mkCell (Some n) None)).
Proof.
  induction rows as [|row rows IH]; intros numbers b g Hb Hcol Hrows Hnd Hnum Hlen.
  - exists []. simpl. split_and!; try done.
    + constructor.
    + intros x Hx. by apply elem_of_nil in Hx.
  - simpl in Hlen. rewrite fill_rows_cons.
    pose proof (random_below_lt (length numbers) g ltac:(lia)) as Hk.
    destruct (random_below (length numbers) g) as [k g'] eqn:Hrb.
    simpl in Hk. cbn [fst snd].
    destruct (lookup_lt_is_Some_2 numbers k Hk) as [n Hn]. rewrite Hn.
    apply Forall_cons in Hrows as [Hrow Hrows].
    apply NoDup_cons in Hnd as [Hfresh Hnd].
    set (b1 := set_cell b row col (Some (mkCell (Some n) None))).
    destruct (IH (delete k numbers) b1 g') as
      (picks & Hpl & Hpnd & Hpsub & Hshape & Hsame & Hfilled).
    { by apply shape5_set_cell. }
    { done. }
    { done. }
    { done. }
    { eapply sublist_NoDup; [done|apply sublist_delete]. }
    { rewrite length_delete by (by eexists). lia. }
    exists (n :: picks). split_and!.
    + simpl. by rewrite Hpl.
    + apply NoDup_cons. split; [|done].
      intros Hin. apply Hpsub in Hin.
      exact (NoDup_delete_lookup numbers k n Hnum Hn Hin).
    + intros x Hx. apply elem_of_cons in Hx as [->|Hx].
      * by eapply list_elem_of_lookup_2.
      * eapply list_elem_of_delete_inv. by apply Hpsub.
    + done.
    + intros r c Hrc. rewrite Hsame.
      * apply get_cell_set_cell_ne.
        destruct Hrc as [Hc|Hr]; [by right|].
        left. intros ->. apply Hr. by left.
      * destruct Hrc as [Hc|Hr]; [by left|].
        right. intros Hin. apply Hr. by right.
    + intros i r x Hi Hx. destruct i as [|i]; simpl in Hi, Hx.
      * injection Hi as <-. injection Hx as <-.
        rewrite Hsame by (by right).
        destruct (shape5_row b row Hb Hrow) as (rw & Hrw & Hrwl).
        eapply get_cell_set_cell_eq; [done|lia].
      * by eapply Hfilled.
Qed.

Lemma ranges_lookup col min max :
  ranges !! col = Some (min, max) →
  min = 15 * Z.of_nat col + 1 ∧ max = 15 * Z.of_nat col + 15.
Proof.
  intros H. do 5 (destruct col as [|col]; [by inversion H|]). done.
Qed.

Lemma fill_cols_cons col cols b g :
  fill_cols (col :: cols) b g
  = match ranges !! col with
    | Some (min, max) =>
        fill_cols cols
          (fill_rows col (seq 0 5) (range_numbers min max) b g).1
          (fill_rows col (seq 0 5) (range_numbers min max) b g).2
    | None => (b, g)
    end.
Proof.
  simpl fill_cols. destruct (ranges !! col) as [[min max]|]; [|done].
  by destruct (fill_rows col (seq 0 5) (range_numbers min max) b g).
Qed.

(** The loop over the columns: every processed column holds five distinct
    numbers of its range, unmarked; the other columns are untouched. *)
Lemma fill_cols_spec cols : ∀ b g,
  shape5 b → Forall (λ c, (c < 5)%nat) cols → NoDup cols →
  shape5 (fill_cols cols b g).1 ∧
  (∀ r c, c ∉ cols → get_cell (fill_cols cols b g).1 r c = get_cell b r c) ∧
  (∀ c, c ∈ cols →
     ∃ picks, length picks = 5%nat ∧ NoDup picks ∧
       Forall (λ n, 15 * Z.of_nat c + 1 ≤ n ≤ 15 * Z.of_nat c + 15) picks ∧
       ∀ r n, picks !! r = Some n →
         get_cell (fill_cols cols b g).1 r c = Some (mkCell (Some n) None)).
Proof.
  induction cols as [|col cols IH]; intros b g Hb Hcols Hnd.
  - simpl. split_and!; [done|done|]. intros c Hc. by apply elem_of_nil in Hc.
  - apply Forall_cons in Hcols as [Hcol Hcols].
    apply NoDup_cons in Hnd as [Hfresh Hnd].
    rewrite fill_cols_cons.
    destruct (lookup_lt_is_Some_2 ranges col) as [[min max] Hr];
      [simpl; lia|].
    rewrite Hr.
    destruct (ranges_lookup _ _ _ Hr) as [Hmin Hmax].
    destruct (fill_rows_spec col (seq 0 5) (range_numbers min max) b g)
      as (picks & Hpl & Hpnd & Hpsub & Hshape & Hsame & Hfilled).
    { done. }
    { done. }
    { apply Forall_forall. intros r Hr5. apply elem_of_seq in Hr5. lia. }
    { apply NoDup_seq. }
    { apply range_numbers_NoDup. }
    { rewrite range_numbers_length, length_seq. lia. }
    destruct (fill_rows col (seq 0 5) (range_numbers min max) b g)
      as [b1 g1] eqn:Hfr.
    cbn [fst snd] in Hshape, Hsame, Hfilled |- *.
    destruct (IH b1 g1 Hshape Hcols Hnd) as (Hshape' & Hsame' & Hfilled').
    split_and!.
    + done.
    + intros r c Hc. rewrite Hsame'.
      * apply Hsame. left. intros ->. apply Hc. by left.
      * intros Hin. apply Hc. by right.
    + intros c Hc. apply elem_of_cons in Hc as [->|Hc].
      * exists picks. rewrite length_seq in Hpl. split_and!; [done|done| |].
        -- apply Forall_forall. intros n Hn. apply Hpsub in Hn.
           apply range_numbers_bounds in Hn. lia.
        -- intros r n Hn. rewrite Hsame' by done.
           eapply Hfilled; [|done].
           apply lookup_seq. split; [done|].
           apply lookup_lt_Some in Hn. lia.
      * by apply Hfilled'.
Qed.

Lemma empty_board_shape5 : shape5 empty_board.
Proof. split; [done|]. by repeat constructor. Qed.

Lemma shape5_mark_free b : shape5 b → shape5 (mark_free b).
Proof.
  intros Hb. unfold mark_free.
  destruct (get_cell b 2 2); [|done]. by apply shape5_set_cell.
Qed.

(** Setting the centre free keeps every number and changes no other
    [markedBy]. *)
Lemma cell_number_mark_free b r c :
  shape5 b → cell_number (mark_free b) r c = cell_number b r c.
Proof.
  intros Hb. unfold mark_free, cell_number.
  destruct (get_cell b 2 2) as [cell|] eqn:Hcell; [|done].
  destruct (decide (r = 2%nat ∧ c = 2%nat)) as [[-> ->]|Hne].
  - destruct (shape5_row b 2 Hb ltac:(lia)) as (rw & Hrw & Hrwl).
    erewrite get_cell_set_cell_eq; [|done|lia].
    by rewrite Hcell.
  - rewrite get_cell_set_cell_ne; [done|]. lia.
Qed.

Lemma get_cell_mark_free_other b r c :
  (r, c) ≠ (2%nat, 2%nat) → get_cell (mark_free b) r c = get_cell b r c.
Proof.
  intros Hne. unfold mark_free.
  destruct (get_cell b 2 2) as [cell|] eqn:Hcell; [|done].
  apply get_cell_set_cell_ne.
  destruct (decide (r = 2%nat)) as [->|]; [|lia].
  right. intros <-. by apply Hne.
Qed.

Lemma get_cell_mark_free_center b cell :
  shape5 b → get_cell b 2 2 = Some cell →
  get_cell (mark_free b) 2 2 = Some (mkCell (number cell) (Some "free")).
Proof.
  intros Hb Hcell. unfold mark_free. rewrite Hcell.
  destruct (shape5_row b 2 Hb ltac:(lia)) as (rw & Hrw & Hrwl).
  eapply get_cell_set_cell_eq; [done|lia].
Qed.

(** What [generateBoard] returns, column by column. *)
Lemma generateBoard_spec g :
  shape5 (generateBoard g).1 ∧
  ∀ c, (c < 5)%nat →
    ∃ picks, length picks = 5%nat ∧ NoDup picks ∧
      Forall (λ n, 15 * Z.of_nat c + 1 ≤ n ≤ 15 * Z.of_nat c + 15) picks ∧
      ∀ r n, picks !! r = Some n →
        get_cell (generateBoard g).1 r c
        = Some (mkCell (Some n)
                  (if bool_decide ((r, c) = (2%nat, 2%nat))
                   then Some "free" else None)).
Proof.
  unfold generateBoard.
  destruct (fill_cols_spec (seq 0 5) empty_board g) as (Hshape & _ & Hfilled).
  { apply empty_board_shape5. }
  { apply Forall_forall. intros c Hc. apply elem_of_seq in Hc. lia. }
  { apply NoDup_seq. }
  destruct (fill_cols (seq 0 5) empty_board g) as [b g'] eqn:Hfc.
  cbn [fst snd] in *. split; [by apply shape5_mark_free|].
  intros c Hc.
  destruct (Hfilled c) as (picks & Hpl & Hpnd & Hrange & Hcells).
  { apply elem_of_seq. lia. }
  exists picks. split_and!; [done..|].
  intros r n Hn. specialize (Hcells r n Hn).
  case_bool_decide as Hrc.
  - injection Hrc as -> ->.
    by rewrite (get_cell_mark_free_center b _ Hshape Hcells).
  - by rewrite get_cell_mark_free_other.
Qed.

Lemma generateBoard_wf g : board_wf (generateBoard g).1.
Proof.
  destruct (generateBoard_spec g) as [Hshape Hcols].
  apply board_wf_intro; [done|].
  intros r c Hr Hc.
  destruct (Hcols c Hc) as (picks & Hpl & _ & _ & Hcells).
  destruct (lookup_lt_is_Some_2 picks r) as [n Hn]; [lia|].
  rewrite (Hcells r n Hn). by eexists.
Qed.
End Generator.

(** ** The win evaluator *)

Section WinEvaluator.
Implicit Types (b : Board) (sid : string).

Lemma row_grid row r b :
  board_wf b → b !! r = Some row →
  row = Some <$> (cell_at b r <$> seq 0 5).
Proof.
  intros [Hlen Hrows] Hrow.
  eapply Forall_lookup_1 in Hrows as [Hl Hsome]; [|done].
  apply list_eq. intros c.
  rewrite !list_lookup_fmap.
  destruct (decide (c < 5)%nat) as [Hc|Hc].
  - rewrite lookup_seq_lt by done. simpl.
    destruct (lookup_lt_is_Some_2 row c) as [s Hs]; [lia|].
    destruct (Forall_lookup_1 _ _ _ _ Hsome Hs) as [cell ->].
    rewrite Hs. unfold cell_at, get_cell. rewrite Hrow. simpl.
    by rewrite Hs.
  - rewrite lookup_ge_None_2 by lia.
    by rewrite lookup_ge_None_2 by (rewrite length_seq; lia).
Qed.

Lemma board_wf_grid b : board_wf b → b = grid (cell_at b).
Proof.
  intros Hb. apply list_eq. intros r. unfold grid.
  rewrite list_lookup_fmap.
  destruct (decide (r < 5)%nat) as [Hr|Hr].
  - rewrite lookup_seq_lt by done. simpl.
    destruct (lookup_lt_is_Some_2 b r) as [row Hrow]; [destruct Hb; lia|].
    rewrite Hrow. f_equal. by apply row_grid.
  - rewrite lookup_ge_None_2 by (destruct Hb; lia).
    by rewrite lookup_ge_None_2 by (rewrite length_seq; lia).
Qed.

Lemma get_cell_grid f r c :
  (r < 5)%nat → (c < 5)%nat → get_cell (grid f) r c = Some (f r c).
Proof.
  intros Hr Hc.
  do 5 (destruct r as [|r]; [do 5 (destruct c as [|c]; [reflexivity|]); lia|]).
  lia.
Qed.

Lemma marked_for_spec sid cell :
  marked_for sid cell = true ↔
  markedBy cell = Some sid ∨ markedBy cell = Some "free".
Proof.
  unfold marked_for. rewrite orb_true_iff, !bool_decide_eq_true. done.
Qed.

Lemma checkLine_cells sid (cs : list Cell) :
  checkLine sid (Some <$> cs) = Ok (forallb (marked_for sid) cs).
Proof.
  induction cs as [|c cs IH]; [done|]. simpl.
  by destruct (marked_for sid c).
Qed.

Lemma some_Ok {A} (f : A → result bool) (h : A → bool) (arr : list A) :
  (∀ x, x ∈ arr → f x = Ok (h x)) → some f arr = Ok (existsb h arr).
Proof.
  induction arr as [|x arr IH]; intros Hf; [done|]. simpl.
  rewrite (Hf x) by left. simpl.
  destruct (h x); [done|]. apply IH. intros y Hy. apply Hf. by right.
Qed.

Lemma forallb_five (h : nat → bool) :
  forallb h (seq 0 5) = true ↔ ∀ i, (i < 5)%nat → h i = true.
Proof.
  rewrite forallb_forall. split.
  - intros H i Hi. apply H, in_seq. lia.
  - intros H i Hi. apply in_seq in Hi. apply H. lia.
Qed.

Lemma existsb_five (h : nat → bool) :
  existsb h (seq 0 5) = true ↔ ∃ i, (i < 5)%nat ∧ h i = true.
Proof.
  rewrite existsb_exists. split.
  - intros (i & Hi & H). apply in_seq in Hi. exists i. split; [lia|done].
  - intros (i & Hi & H). exists i. split; [apply in_seq; lia|done].
Qed.

Lemma forallb_fmap {A B} (h : B → bool) (k : A → B) (l : list A) :
  forallb h (k <$> l) = forallb (h ∘ k) l.
Proof.
  induction l as [|x l IH]; [done|].
  change (h (k x) && forallb h (k <$> l) = h (k x) && forallb (h ∘ k) l).
  by rewrite IH.
Qed.

Lemma some_fmap {A B} (f : B → result bool) (k : A → B) (arr : list A) :
  some f (k <$> arr) = some (f ∘ k) arr.
Proof.
  induction arr as [|x arr IH]; [done|].
  change (some f (k <$> (x :: arr)))
    with (b ← f (k x); if b : bool then Ok true else some f (k <$> arr)).
  by rewrite IH.
Qed.

Lemma or_else_Ok (x y : bool) : or_else (Ok x) (Ok y) = Ok (x || y).
Proof. by destruct x. Qed.

Lemma column_grid f c :
  c ∈ five → column (grid f) c = Some <$> ((λ r, f r c) <$> seq 0 5).
Proof.
  intros Hc. unfold five in Hc.
  repeat (apply elem_of_cons in Hc as [->|Hc]; [reflexivity|]).
  by apply elem_of_nil in Hc.
Qed.

Lemma hasBingo_grid sid f : hasBingo sid (grid f) = Ok (bingo_formula sid f).
Proof.
  unfold hasBingo, bingo_formula.
  assert (some (checkLine sid) (grid f)
          = Ok (existsb (λ r, forallb (marked_for sid) (f r <$> seq 0 5))
                  (seq 0 5))) as ->.
  { unfold grid. rewrite some_fmap. apply some_Ok.
    intros r _. apply checkLine_cells. }
  assert (some (λ c, checkLine sid (column (grid f) c)) five
          = Ok (existsb
                  (λ c, forallb (marked_for sid) ((λ r, f r c) <$> seq 0 5))
                  five)) as ->.
  { apply some_Ok. intros c Hc. rewrite column_grid by done.
    apply checkLine_cells. }
  assert (map_result (λ i, read_cell (grid f) i i) five
          = Ok (Some <$> ((λ i, f i i) <$> five))) as -> by reflexivity.
  assert (map_result (λ i, read_cell (grid f) i (4 - i)%nat) five
          = Ok (Some <$> ((λ i, f i (4 - i)%nat) <$> five))) as ->
    by reflexivity.
  change (cells ← Ok (Some <$> ((λ i, f i i) <$> five)); checkLine sid cells)
    with (checkLine sid (Some <$> ((λ i, f i i) <$> five))).
  change (cells ← Ok (Some <$> ((λ i, f i (4 - i)%nat) <$> five));
          checkLine sid cells)
    with (checkLine sid (Some <$> ((λ i, f i (4 - i)%nat) <$> five))).
  by rewrite !checkLine_cells, !or_else_Ok.
Qed.

Lemma and_iff_l (A B C : Prop) : (A → (B ↔ C)) → (A ∧ B ↔ A ∧ C).
Proof. tauto. Qed.

Lemma or_iff (A B C D : Prop) : (A ↔ B) → (C ↔ D) → (A ∨ C ↔ B ∨ D).
Proof. tauto. Qed.

Lemma ex_iff {T} (P Q : T → Prop) :
  (∀ x, P x ↔ Q x) → ((∃ x, P x) ↔ ∃ x, Q x).
Proof. intros H. split; intros [x Hx]; exists x; by apply H. Qed.

Lemma counts_for_grid sid f r c :
  (r < 5)%nat → (c < 5)%nat →
  counts_for sid (grid f) r c ↔ marked_for sid (f r c) = true.
Proof.
  intros Hr Hc. unfold counts_for. rewrite get_cell_grid by done.
  rewrite marked_for_spec. split.
  - by intros (cell & [= <-] & H).
  - intros H. by eexists.
Qed.

Lemma wins_grid sid f : wins sid (grid f) ↔ bingo_formula sid f = true.
Proof.
  unfold wins, bingo_formula. change five with (seq 0 5).
  rewrite !orb_true_iff, !existsb_five.
  apply or_iff; [|apply or_iff; [|apply or_iff]].
  - apply ex_iff. intros r. apply and_iff_l. intros Hr.
    rewrite forallb_fmap, forallb_five. unfold row_complete.
    split; intros H c Hc; by apply counts_for_grid, H.
  - apply ex_iff. intros c. apply and_iff_l. intros Hc.
    rewrite forallb_fmap, forallb_five. unfold column_complete.
    split; intros H r Hr; by apply counts_for_grid, H.
  - rewrite forallb_fmap, forallb_five. unfold main_diagonal_complete. split.
    + intros H i Hi. by apply counts_for_grid, H.
    + intros H r c Hr Hc <-. apply counts_for_grid; [done..|]. by apply H.
  - rewrite forallb_fmap, forallb_five. unfold anti_diagonal_complete. split.
    + intros H i Hi. apply counts_for_grid, H; lia.
    + intros H r c Hr Hc Hrc. apply counts_for_grid; [done..|].
      replace c with (4 - r)%nat by lia. by apply H.
Qed.

(** On a full board the check returns, and it returns true exactly for
    the boards with a complete line. *)
Lemma hasBingo_wf sid b :
  board_wf b →
  ∃ w, hasBingo sid b = Ok w ∧ (w = true ↔ wins sid b).
Proof.
  intros Hb. rewrite (board_wf_grid b Hb).
  exists (bingo_formula sid (cell_at b)). split.
  - apply hasBingo_grid.
  - symmetry. apply wins_grid.
Qed.
End WinEvaluator.

(** ** Cell marking *)

Section Marking.
Implicit Types (b : Board) (games : gmap string Game) (sid roomId : string).

Lemma index_in_range {A} (arr : list A) (i : Z) :
  0 ≤ i → index arr i = arr !! Z.to_nat i.
Proof. intros Hi. unfold index. by rewrite bool_decide_eq_true_2. Qed.

Lemma index_out_of_range {A} (arr : list A) (i : Z) :
  i < 0 ∨ Z.of_nat (length arr) ≤ i → index arr i = None.
Proof.
  intros Hi. unfold index. case_bool_decide; [|done].
  apply lookup_ge_None_2. lia.
Qed.

Lemma board_wf_set_cell b r c cell :
  board_wf b → board_wf (set_cell b r c (Some cell)).
Proof.
  intros [Hlen Hrows]. unfold set_cell.
  destruct (b !! r) as [row|] eqn:Hrow; [|done].
  split; [by rewrite length_insert|].
  apply Forall_insert; [done|].
  destruct (Forall_lookup_1 _ _ _ _ Hrows Hrow) as [Hl Hsome].
  split; [by rewrite length_insert|].
  apply Forall_insert; [done|]. by eexists.
Qed.

(** The toggle of an in-range cell, as an equation on the registry. *)
Lemma mark_cell_in_range games roomId game sid player row col :
  games !! roomId = Some game →
  players game !! sid = Some player →
  board_wf (board player) →
  0 ≤ row < 5 → 0 ≤ col < 5 →
  ∃ cell,
    get_cell (board player) (Z.to_nat row) (Z.to_nat col) = Some cell ∧
    mark_cell sid roomId row col games
    = (<[roomId :=
           set_players game
             (<[sid :=
                  set_board player
                    (set_cell (board player) (Z.to_nat row) (Z.to_nat col)
                       (Some (set_markedBy cell
                                (if truthy (markedBy cell)
                                 then None else Some sid))))]>
                (players game))]> games,
       Ok AckOk).
Proof.
  intros Hgame Hplayer Hwf Hrow Hcol.
  destruct (board_wf_get_cell (board player) (Z.to_nat row) (Z.to_nat col))
    as [cell Hcell]; [done|lia|lia|].
  exists cell. split; [done|].
  unfold mark_cell. rewrite Hgame, Hplayer.
  rewrite index_in_range by lia.
  unfold get_cell in Hcell.
  destruct (board player !! Z.to_nat row) as [rw|] eqn:Hrw; [|done].
  simpl in Hcell. rewrite index_in_range by lia. by rewrite Hcell.
Qed.

(** A row index outside the board: [board[row]] is [undefined] and
    reading [[col]] of it throws before the guard [if (!cell)]. *)
Lemma mark_cell_row_out_of_range games roomId game sid player row col :
  games !! roomId = Some game →
  players game !! sid = Some player →
  board_wf (board player) →
  row < 0 ∨ 5 ≤ row →
  mark_cell sid roomId row col games = (games, Throw).
Proof.
  intros Hgame Hplayer [Hlen _] Hrow.
  unfold mark_cell. rewrite Hgame, Hplayer.
  by rewrite index_out_of_range by (rewrite Hlen; lia).
Qed.

(** A column index outside an existing row: the guard answers. *)
Lemma mark_cell_col_out_of_range games roomId game sid player row col :
  games !! roomId = Some game →
  players game !! sid = Some player →
  board_wf (board player) →
  0 ≤ row < 5 → col < 0 ∨ 5 ≤ col →
  mark_cell sid roomId row col games = (games, Ok (AckError "Invalid cell")).
Proof.
  intros Hgame Hplayer Hwf Hrow Hcol.
  destruct (shape5_row (board player) (Z.to_nat row)) as (rw & Hrw & Hl);
    [by apply board_wf_shape5|lia|].
  unfold mark_cell. rewrite Hgame, Hplayer.
  rewrite index_in_range by lia. rewrite Hrw.
  by rewrite index_out_of_range by (rewrite Hl; lia).
Qed.
End Marking.

(** ** The number caller *)

Section Caller.
Implicit Types (games : gmap string Game) (game : Game) (sid roomId : string).

Lemma elem_of_availableNumbers game x :
  x ∈ availableNumbers game ↔ 1 ≤ x ≤ 75 ∧ x ∉ calledNumbers game.
Proof.
  unfold availableNumbers.
  rewrite list_elem_of_filter, list_elem_of_fmap. split.
  - intros (Hx & i & -> & Hi). apply elem_of_seq in Hi. split; [lia|done].
  - intros (Hx & Hnew). split; [done|].
    exists (Z.to_nat (x - 1)). split; [lia|]. apply elem_of_seq. lia.
Qed.

(** What one call-number event does to the registry. *)
Lemma call_number_step games roomId game sid g :
  games !! roomId = Some game →
  (∃ msg, call_number sid roomId g games = (games, Ok (AckError msg))) ∨
  (∃ n, sid = hostId game ∧ (1 ≤ n ≤ 75) ∧ (n ∉ calledNumbers game) ∧
        call_number sid roomId g games
        = (<[roomId := set_calledNumbers game (calledNumbers game ++ [n])]>
             games,
           Ok (AckNumber n))).
Proof.
  intros Hgame. unfold call_number. rewrite Hgame.
  case_bool_decide as Hhost; [left; by eexists|].
  case_bool_decide as Hempty; [left; by eexists|].
  pose proof (random_below_lt (length (availableNumbers game)) g
                ltac:(lia)) as Hk.
  destruct (lookup_lt_is_Some_2 _ _ Hk) as [n Hn]. rewrite Hn.
  right. exists n.
  apply list_elem_of_lookup_2, elem_of_availableNumbers in Hn as [Hr Hnew].
  done.
Qed.

(** When all of 1..75 has been called nothing is available. *)
Lemma availableNumbers_exhausted game (l : list Z) :
  called_ok game →
  NoDup l → length l = 75%nat → l ⊆ calledNumbers game →
  availableNumbers game = [].
Proof.
  intros [_ Hrange] Hnd Hlen Hsub.
  set (all := (λ i : nat, Z.of_nat i + 1) <$> seq 0 75).
  assert (incl all l) as Hall.
  { apply NoDup_length_incl; [by apply NoDup_ListNoDup| |].
    { unfold all. rewrite Hlen, length_fmap, length_seq. lia. }
    intros x Hx. apply list_elem_of_In, Hsub in Hx.
    rewrite Forall_forall in Hrange. specialize (Hrange x Hx).
    apply list_elem_of_In, list_elem_of_fmap.
    exists (Z.to_nat (x - 1)). split; [lia|]. apply elem_of_seq. lia. }
  destruct (availableNumbers game) as [|x rest] eqn:Havail; [done|].
  assert (x ∈ availableNumbers game) as Hx by (rewrite Havail; left).
  apply elem_of_availableNumbers in Hx as [Hx Hnew].
  exfalso. apply Hnew, Hsub, list_elem_of_In, Hall.
  apply list_elem_of_In, list_elem_of_fmap.
  exists (Z.to_nat (x - 1)). split; [lia|]. apply elem_of_seq. lia.
Qed.

Lemma call_number_exhausted games roomId game (l : list Z) g :
  games !! roomId = Some game →
  called_ok game →
  NoDup l → length l = 75%nat → l ⊆ calledNumbers game →
  call_number (hostId game) roomId g games
  = (games, Ok (AckError "All numbers called")).
Proof.
  intros Hgame Hok Hnd Hlen Hsub.
  unfold call_number. rewrite Hgame.
  rewrite bool_decide_eq_false_2 by (by intros []).
  by rewrite (availableNumbers_exhausted game l).
Qed.

Lemma called_ok_snoc game n :
  called_ok game → 1 ≤ n ≤ 75 → n ∉ calledNumbers game →
  called_ok (set_calledNumbers game (calledNumbers game ++ [n])).
Proof.
  intros [Hnd Hrange] Hn Hnew. split; simpl.
  - apply NoDup_app. split_and!; [done| |apply NoDup_singleton].
    intros x Hx Hin. apply list_elem_of_singleton in Hin as ->. done.
  - apply Forall_app. split; [done|]. by constructor.
Qed.

(** A run of call-number events on one room: the numbers handed out are
    new, distinct, in 1..75, and appended in order. *)
Lemma run_call_actions roomId calls : ∀ games game,
  games !! roomId = Some game → called_ok game →
  ∃ acks,
    run (call_actions roomId calls) games
    = (<[roomId :=
           set_calledNumbers game
             (calledNumbers game ++ returned_numbers acks)]> games,
       Ok acks) ∧
    length acks = length calls ∧
    called_ok (set_calledNumbers game
                 (calledNumbers game ++ returned_numbers acks)).
Proof.
  induction calls as [|[sid g] calls IH]; intros games game Hgame Hok.
  - exists []. simpl. rewrite app_nil_r. split_and!; [|done|].
    + f_equal. symmetry. destruct game. by apply insert_id.
    + by destruct game.
  - simpl call_actions. simpl run.
    destruct (call_number_step games roomId game sid g Hgame)
      as [[msg Hcall]|(n & Hhost & Hn & Hnew & Hcall)]; rewrite Hcall.
    + destruct (IH games game Hgame Hok) as (acks & Hrun & Hlen & Hok').
      exists (AckError msg :: acks).
      fold (call_actions roomId calls). rewrite Hrun. simpl.
      by rewrite Hlen.
    + set (game1 := set_calledNumbers game (calledNumbers game ++ [n])).
      destruct (IH (<[roomId := game1]> games) game1) as
        (acks & Hrun & Hlen & Hok').
      { by rewrite lookup_insert_eq. }
      { by apply called_ok_snoc. }
      exists (AckNumber n :: acks).
      fold (call_actions roomId calls). rewrite Hrun.
      simpl in *. rewrite <- app_assoc in *. simpl in *.
      rewrite insert_insert_eq. by rewrite Hlen.
Qed.
End Caller.

(** ** Invariants of the registry *)

Section Invariants.
Implicit Types (games : gmap string Game) (game : Game) (sid roomId : string).

Lemma games_wf_insert games roomId game :
  games_wf games → game_wf game → games_wf (<[roomId := game]> games).
Proof.
  intros Hwf Hgame rid game' Hlook.
  rewrite lookup_insert in Hlook. case_decide; simplify_eq; [done|].
  by eapply Hwf.
Qed.

Lemma game_wf_insert_player game sid player :
  game_wf game → board_wf (board player) →
  game_wf (set_players game (<[sid := player]> (players game))).
Proof.
  intros [Hcalled Hboards] Hboard. split; [done|].
  intros sid' player' Hlook. simpl in Hlook.
  rewrite lookup_insert in Hlook. case_decide; simplify_eq; [done|].
  by eapply Hboards.
Qed.

(** Every handler keeps the rooms well formed. *)
Lemma handle_wf a games games' out :
  games_wf games → handle a games = (games', out) → games_wf games'.
Proof.
  intros Hwf Hstep. destruct a; cbn [handle] in Hstep.
  - unfold create_room in Hstep. simplify_eq.
    apply games_wf_insert; [done|]. split.
    + split; [constructor|constructor].
    + intros sid' player Hlook. cbn [players] in Hlook.
      apply lookup_singleton_Some in Hlook as [_ <-].
      cbn [board]. apply generateBoard_wf.
  - unfold join_room in Hstep.
    destruct (games !! roomId) as [game|] eqn:Hgame; [|by simplify_eq].
    destruct (started game); simplify_eq; [done|].
    apply games_wf_insert; [done|].
    apply game_wf_insert_player;
      [by eapply Hwf|cbn [board]; apply generateBoard_wf].
  - unfold start_game in Hstep.
    destruct (games !! roomId) as [game|] eqn:Hgame; [|by simplify_eq].
    case_bool_decide; simplify_eq; [done|].
    apply games_wf_insert; [done|].
    destruct (Hwf _ _ Hgame) as [_ Hboards].
    split; [split; constructor|done].
  - destruct (games !! roomId) as [game|] eqn:Hgame.
    + destruct (call_number_step games roomId game sid g Hgame)
        as [[msg Hcall]|(n & _ & Hn & Hnew & Hcall)];
        rewrite Hcall in Hstep; simplify_eq; [done|].
      apply games_wf_insert; [done|].
      destruct (Hwf _ _ Hgame) as [Hcalled Hboards].
      split; [by apply called_ok_snoc|done].
    + unfold call_number in Hstep. rewrite Hgame in Hstep. by simplify_eq.
  - unfold mark_cell in Hstep.
    destruct (games !! roomId) as [game|] eqn:Hgame; [|by simplify_eq].
    destruct (players game !! sid) as [player|] eqn:Hplayer;
      [|by simplify_eq].
    destruct (index (board player) row) as [r|]; [|by simplify_eq].
    destruct (mjoin (index r col)) as [cell|]; simplify_eq; [|done].
    apply games_wf_insert; [done|].
    apply game_wf_insert_player; [by eapply Hwf|].
    apply board_wf_set_cell.
    destruct (Hwf _ _ Hgame) as [_ Hboards]. by eapply Hboards.
  - unfold claim_bingo in Hstep.
    destruct (games !! roomId) as [game|] eqn:Hgame; [|by simplify_eq].
    destruct (players game !! sid) as [player|] eqn:Hplayer;
      [|by simplify_eq].
    destruct (hasBingo sid (board player)) as [[|]|]; simplify_eq;
      [|done|done].
    apply games_wf_insert; [done|].
    destruct (Hwf _ _ Hgame) as [Hcalled Hboards]. by split.
  - unfold disconnect in Hstep. simplify_eq.
    intros rid game' Hlook.
    apply lookup_omap_Some in Hlook as (game & Hsome & Hgame).
    destruct (Hwf _ _ Hgame) as [Hcalled Hboards].
    destruct (players game !! sid) eqn:Hplayer; [|by simplify_eq].
    case_bool_decide; simplify_eq.
    split; [done|]. intros sid' player Hlook. simpl in Hlook.
    apply lookup_delete_Some in Hlook as [_ Hlook]. by eapply Hboards.
Qed.

Lemma games_wf_empty : games_wf ∅.
Proof. intros rid game Hlook. by rewrite lookup_empty in Hlook. Qed.

(** Every registry the server reaches is well formed. *)
Lemma reachable_wf games : reachable games → games_wf games.
Proof.
  induction 1 as [|a games games' ack _ IH Hstep].
  - apply games_wf_empty.
  - by eapply handle_wf.
Qed.

Lemma run_reachable acts : ∀ games games' acks,
  reachable games → run acts games = (games', Ok acks) → reachable games'.
Proof.
  induction acts as [|a acts IH]; intros games games' acks Hreach Hrun.
  - simpl in Hrun. by simplify_eq.
  - simpl in Hrun.
    destruct (handle a games) as [games1 [ack|]] eqn:Hstep; [|done].
    destruct (run acts games1) as [games2 [acks'|]] eqn:Hrest;
      simpl in Hrun; simplify_eq.
    eapply IH; [|done]. by eapply reachable_step.
Qed.

(** The only event that records a winner [w] is a claim-bingo of [w]
    whose check succeeded. *)
Lemma handle_winner a games games' out roomId game game' w :
  handle a games = (games', out) →
  games !! roomId = Some game → games' !! roomId = Some game' →
  winnerId game' = Some w → winnerId game ≠ Some w →
  a = ClaimBingo w roomId ∧ out = Ok AckOk ∧
  ∃ player, players game !! w = Some player ∧
            hasBingo w (board player) = Ok true.
Proof.
  intros Hstep Hgame Hgame' Hw Hold. destruct a; cbn [handle] in Hstep.
  - unfold create_room in Hstep. simplify_eq.
    rewrite lookup_insert in Hgame'. case_decide; simplify_eq.
  - unfold join_room in Hstep.
    destruct (games !! roomId0) as [game0|] eqn:Hgame0; [|by simplify_eq].
    destruct (started game0); simplify_eq.
    rewrite lookup_insert in Hgame'. case_decide; simplify_eq.
  - unfold start_game in Hstep.
    destruct (games !! roomId0) as [game0|] eqn:Hgame0; [|by simplify_eq].
    case_bool_decide; simplify_eq.
    rewrite lookup_insert in Hgame'. case_decide; simplify_eq.
  - destruct (games !! roomId0) as [game0|] eqn:Hgame0.
    + destruct (call_number_step games roomId0 game0 sid g Hgame0)
        as [[msg Hcall]|(n & _ & Hn & Hnew & Hcall)];
        rewrite Hcall in Hstep; simplify_eq.
      rewrite lookup_insert in Hgame'. case_decide; simplify_eq.
    + unfold call_number in Hstep. rewrite Hgame0 in Hstep. by simplify_eq.
  - unfold mark_cell in Hstep.
    destruct (games !! roomId0) as [game0|] eqn:Hgame0; [|by simplify_eq].
    destruct (players game0 !! sid) as [player|] eqn:Hplayer;
      [|by simplify_eq].
    destruct (index (board player) row) as [r|]; [|by simplify_eq].
    destruct (mjoin (index r col)) as [cell|]; simplify_eq.
    rewrite lookup_insert in Hgame'. case_decide; simplify_eq.
  - unfold claim_bingo in Hstep.
    destruct (games !! roomId0) as [game0|] eqn:Hgame0; [|by simplify_eq].
    destruct (players game0 !! sid) as [player|] eqn:Hplayer;
      [|by simplify_eq].
    destruct (hasBingo sid (board player)) as [[|]|] eqn:Hcheck;
      simplify_eq.
    rewrite lookup_insert in Hgame'. case_decide; simplify_eq.
    simpl in Hw. simplify_eq. split_and!; [done..|]. by exists player.
  - unfold disconnect in Hstep. simplify_eq.
    apply lookup_omap_Some in Hgame' as (game0 & Hsome & Hgame0).
    simplify_eq.
    destruct (players game !! sid); [|by simplify_eq].
    case_bool_decide; simplify_eq.
Qed.
End Invariants.

(** ** The started flag *)

Section Phase.
Implicit Types (games : gmap string Game) (sid roomId : string).

(** call-number never reads [started]: forcing the flag before the event
    or after it gives the same registry and the same answer. *)
Lemma call_number_with_started flag sid roomId g games :
  call_number sid roomId g (with_started flag roomId games)
  = (with_started flag roomId (call_number sid roomId g games).1,
     (call_number sid roomId g games).2).
Proof.
  unfold call_number, with_started. rewrite lookup_alter_eq.
  destruct (games !! roomId) as [game|] eqn:Hgame; [|done].
  cbn [fmap option_fmap option_map hostId set_started].
  case_bool_decide; [done|].
  change (availableNumbers (set_started game flag))
    with (availableNumbers game).
  case_bool_decide; [done|].
  destruct (availableNumbers game !! _) as [n|]; [|done].
  cbn [fst snd]. f_equal.
  by rewrite insert_alter_eq, alter_insert_eq.
Qed.

Lemma mark_cell_with_started flag sid roomId row col games :
  mark_cell sid roomId row col (with_started flag roomId games)
  = (with_started flag roomId (mark_cell sid roomId row col games).1,
     (mark_cell sid roomId row col games).2).
Proof.
  unfold mark_cell, with_started. rewrite lookup_alter_eq.
  destruct (games !! roomId) as [game|] eqn:Hgame; [|done].
  cbn [fmap option_fmap option_map players set_started].
  destruct (players game !! sid) as [player|]; [|done].
  destruct (index (board player) row) as [r|]; [|done].
  destruct (mjoin (index r col)) as [cell|]; [|done].
  cbn [fst snd]. f_equal.
  by rewrite insert_alter_eq, alter_insert_eq.
Qed.

Lemma claim_bingo_with_started flag sid roomId games :
  claim_bingo sid roomId (with_started flag roomId games)
  = (with_started flag roomId (claim_bingo sid roomId games).1,
     (claim_bingo sid roomId games).2).
Proof.
  unfold claim_bingo, with_started. rewrite lookup_alter_eq.
  destruct (games !! roomId) as [game|] eqn:Hgame; [|done].
  cbn [fmap option_fmap option_map players set_started].
  destruct (players game !! sid) as [player|]; [|done].
  destruct (hasBingo sid (board player)) as [[|]|]; [|done|done].
  cbn [fst snd]. f_equal.
  by rewrite insert_alter_eq, alter_insert_eq.
Qed.

(** join-room is the handler that reads the flag. *)
Lemma join_room_gate sid roomId name g games game :
  games !! roomId = Some game →
  (join_room sid roomId name g games).2
  = Ok (AckError "Game already started")
  ↔ started game = true.
Proof.
  intros Hgame. unfold join_room. rewrite Hgame.
  destruct (started game); cbn [snd]; [done|].
  split; intros H; discriminate H.
Qed.
End Phase.

(** ** claim-bingo and create-room *)

Section Registry.
Implicit Types (games : gmap string Game) (sid roomId : string).

(** claim-bingo leaves every player, hence every board, as it was. *)
Lemma claim_bingo_players sid roomId games rid :
  players <$> (claim_bingo sid roomId games).1 !! rid
  = players <$> games !! rid.
Proof.
  unfold claim_bingo.
  destruct (games !! roomId) as [game|] eqn:Hgame; [|done].
  destruct (players game !! sid) as [player|]; [|done].
  destruct (hasBingo sid (board player)) as [[|]|]; [|done|done].
  cbn [fst]. rewrite lookup_insert. case_decide; [|done].
  subst rid. by rewrite Hgame.
Qed.

Lemma claim_bingo_answer sid roomId games game player w :
  games !! roomId = Some game →
  players game !! sid = Some player →
  hasBingo sid (board player) = Ok w →
  claim_bingo sid roomId games
  = (if w then <[roomId := set_winnerId game (Some sid)]> games else games,
     Ok (if w then AckOk else AckError "Not a valid bingo")).
Proof.
  intros Hgame Hplayer Hcheck. unfold claim_bingo.
  rewrite Hgame, Hplayer, Hcheck. by destruct w.
Qed.
End Registry.

(** ** Reading a board after a mark *)

Section AfterMark.
Implicit Types (games : gmap string Game) (sid roomId : string).

Lemma cell_number_get_cell (b : Board) r c n m :
  get_cell b r c = Some (mkCell (Some n) m) → cell_number b r c = Some n.
Proof. intros H. unfold cell_number. by rewrite H. Qed.

Lemma marked_at_lookup games roomId game sid player r c :
  games !! roomId = Some game →
  players game !! sid = Some player →
  marked_at games roomId sid r c = markedBy <$> get_cell (board player) r c.
Proof.
  intros Hgame Hplayer. unfold marked_at, board_of.
  rewrite Hgame. simpl. rewrite Hplayer. simpl.
  by destruct (get_cell (board player) r c).
Qed.

(** An in-range mark answers [{ ok: true }] and flips the target cell:
    a truthy [markedBy] becomes [null], a [null] one becomes [sid]. *)
Lemma mark_cell_marked_at games roomId game sid player row col :
  games !! roomId = Some game →
  players game !! sid = Some player →
  board_wf (board player) →
  0 ≤ row < 5 → 0 ≤ col < 5 →
  ∃ m games' game' player',
    marked_at games roomId sid (Z.to_nat row) (Z.to_nat col) = Some m ∧
    mark_cell sid roomId row col games = (games', Ok AckOk) ∧
    marked_at games' roomId sid (Z.to_nat row) (Z.to_nat col)
    = Some (if truthy m then None else Some sid) ∧
    games' !! roomId = Some game' ∧
    players game' !! sid = Some player' ∧
    board_wf (board player').
Proof.
  intros Hgame Hplayer Hwf Hrow Hcol.
  destruct (mark_cell_in_range games roomId game sid player row col)
    as (cell & Hcell & Hmark); [done..|].
  destruct (shape5_row (board player) (Z.to_nat row)) as (rw & Hrw & Hl);
    [by apply board_wf_shape5|lia|].
  eexists (markedBy cell), _, _, _. split_and!.
  - rewrite (marked_at_lookup _ _ _ _ _ _ _ Hgame Hplayer). by rewrite Hcell.
  - exact Hmark.
  - erewrite marked_at_lookup;
      [|apply lookup_insert_eq|cbn [players]; apply lookup_insert_eq].
    cbn [board set_board].
    erewrite get_cell_set_cell_eq; [done|done|lia].
  - apply lookup_insert_eq.
  - cbn [players]. apply lookup_insert_eq.
  - cbn [board set_board]. by apply board_wf_set_cell.
Qed.
End AfterMark.

(** ** The sample runs *)

Section Samples.
Lemma random_below_any n k :
  (k < n)%nat → (random_below n (λ _, k)).1 = k.
Proof.
  intros Hk. destruct n as [|n]; [lia|].
  unfold random_below. cbn [fst]. by apply Nat.mod_small.
Qed.

Lemma run_completes_reachable acts (games : gmap string Game) :
  reachable games → completes (run acts games).2 →
  reachable (run acts games).1.
Proof.
  intros Hreach Hdone.
  destruct (run acts games) as [games' [acks|]] eqn:Hrun; [|done].
  by eapply run_reachable.
Qed.

Lemma lobby_reachable : reachable lobby.
Proof.
  apply run_completes_reachable; [apply reachable_init|].
  vm_compute. exact I.
Qed.

Lemma alice_won_reachable : reachable alice_won.
Proof.
  apply run_completes_reachable; [apply lobby_reachable|].
  vm_compute. exact I.
Qed.

(** Seventy-five calls by the host hand out seventy-five numbers and the
    seventy-sixth is refused. *)
Lemma seventy_sixth_call_refused :
  match (run seventy_six_calls lobby).2 with
  | Ok acks =>
      length (returned_numbers acks) = 75%nat ∧
      last acks = Some (AckError "All numbers called")
  | Throw => False
  end.
Proof. vm_compute. done. Qed.
End Samples.

(** ** Which draw ends up in which cell *)

Section Draws.
Implicit Types (b : Board) (g : Rng) (numbers : list Z).

Lemma draw_nth_ext i : ∀ numbers g g',
  (∀ k, g k = g' k) → draw_nth i numbers g = draw_nth i numbers g'.
Proof.
  induction i as [|i IH]; intros numbers g g' Hext.
  - cbn [draw_nth]. unfold random_below. cbn [fst]. by rewrite (Hext O).
  - cbn [draw_nth]. unfold random_below. cbn [fst snd]. rewrite (Hext O).
    apply IH. intros k. apply Hext.
Qed.

(** The row loop consumes one draw per row. *)
Lemma fill_rows_rng col rows : ∀ numbers b g k,
  (fill_rows col rows numbers b g).2 k = g (length rows + k)%nat.
Proof.
  induction rows as [|row rows IH]; intros numbers b g k; [done|].
  rewrite fill_rows_cons, IH. reflexivity.
Qed.

Lemma fill_rows_shape5 col rows : ∀ numbers b g,
  shape5 b → shape5 (fill_rows col rows numbers b g).1.
Proof.
  induction rows as [|row rows IH]; intros numbers b g Hb; [done|].
  rewrite fill_rows_cons. by apply IH, shape5_set_cell.
Qed.

Lemma fill_rows_other col rows : ∀ numbers b g r c,
  c ≠ col ∨ r ∉ rows →
  get_cell (fill_rows col rows numbers b g).1 r c = get_cell b r c.
Proof.
  induction rows as [|row rows IH]; intros numbers b g r c Hrc; [done|].
  rewrite fill_rows_cons, IH.
  - apply get_cell_set_cell_ne.
    destruct Hrc as [Hc|Hr]; [by right|].
    left. intros ->. apply Hr. by left.
  - destruct Hrc as [Hc|Hr]; [by left|].
    right. intros Hin. apply Hr. by right.
Qed.

(** The cell of the [i]-th row of the loop holds the [i]-th draw. *)
Lemma fill_rows_draws col rows : ∀ numbers b g i r,
  shape5 b → (col < 5)%nat →
  Forall (λ r, (r < 5)%nat) rows → NoDup rows →
  rows !! i = Some r →
  get_cell (fill_rows col rows numbers b g).1 r col
  = Some (mkCell (draw_nth i numbers g) None).
Proof.
  induction rows as [|row rows IH];
    intros numbers b g i r Hb Hcol Hrows Hnd Hi; [done|].
  apply Forall_cons in Hrows as [Hrow Hrows].
  apply NoDup_cons in Hnd as [Hfresh Hnd].
  rewrite fill_rows_cons. destruct i as [|i]; simpl in Hi.
  - injection Hi as <-. rewrite fill_rows_other by (by right).
    destruct (shape5_row b row Hb Hrow) as (rw & Hrw & Hrwl).
    erewrite get_cell_set_cell_eq; [done|done|lia].
  - by rewrite (IH _ _ _ i r) by (by try apply shape5_set_cell).
Qed.

(** Column [c], the [j]-th one processed, is filled from the draws
    [5j], [5j+1], ... of the stream. *)
Lemma fill_cols_draws cols : ∀ b g j c min max r,
  shape5 b → Forall (λ c, (c < 5)%nat) cols → NoDup cols →
  cols !! j = Some c → ranges !! c = Some (min, max) → (r < 5)%nat →
  get_cell (fill_cols cols b g).1 r c
  = Some (mkCell
            (draw_nth r (range_numbers min max) (λ k, g (5 * j + k)%nat))
            None).
Proof.
  induction cols as [|col cols IH];
    intros b g j c min max r Hb Hcols Hnd Hj Hrange Hr; [done|].
  apply Forall_cons in Hcols as [Hcol Hcols].
  apply NoDup_cons in Hnd as [Hfresh Hnd].
  destruct j as [|j]; simpl in Hj.
  - injection Hj as ->.
    destruct (fill_cols_spec cols
                (fill_rows c (seq 0 5) (range_numbers min max) b g).1
                (fill_rows c (seq 0 5) (range_numbers min max) b g).2)
      as (_ & Hsame & _); [by apply fill_rows_shape5|done..|].
    rewrite fill_cols_cons, Hrange, Hsame by done.
    rewrite (fill_rows_draws c (seq 0 5) _ b g r r); [|done..| |apply NoDup_seq|].
    + reflexivity.
    + apply Forall_forall. intros x Hx. apply elem_of_seq in Hx. lia.
    + by apply lookup_seq_lt.
  - destruct (lookup_lt_is_Some_2 ranges col) as [[min' max'] Hr'];
      [simpl; lia|].
    rewrite fill_cols_cons, Hr'.
    rewrite (IH _ _ j c min max r); [|by apply fill_rows_shape5|done..].
    f_equal. f_equal. apply draw_nth_ext. intros k.
    rewrite fill_rows_rng, length_seq. f_equal. lia.
Qed.

(** The centre of a generated board: the third number drawn for the third
    column, written by the loops and kept when the cell is set free. *)
Lemma center_is_third_draw g :
  ∃ n,
    draw_nth 2 (range_numbers 31 45) (λ k, g (10 + k)%nat) = Some n ∧
    get_cell (fill_cols (seq 0 5) empty_board g).1 2 2
    = Some (mkCell (Some n) None) ∧
    get_cell (generateBoard g).1 2 2 = Some (mkCell (Some n) (Some "free")) ∧
    31 ≤ n ≤ 45 ∧
    ∀ r, (r < 5)%nat → r ≠ 2%nat →
      ∃ m, get_cell (generateBoard g).1 r 2 = Some (mkCell (Some m) None) ∧
           m ≠ n.
Proof.
  destruct (generateBoard_spec g) as [_ Hcols].
  destruct (Hcols 2%nat ltac:(lia)) as (picks & Hpl & Hnd & Hrange & Hcells).
  destruct (lookup_lt_is_Some_2 picks 2) as [n Hn]; [lia|].
  pose proof (Hcells 2%nat n Hn) as Hcenter.
  rewrite bool_decide_eq_true_2 in Hcenter by done.
  assert (Forall (λ c, (c < 5)%nat) (seq 0 5)) as Hfive.
  { apply Forall_forall. intros x Hx. apply elem_of_seq in Hx. lia. }
  assert (get_cell (fill_cols (seq 0 5) empty_board g).1 2 2
          = Some (mkCell
                    (draw_nth 2 (range_numbers 31 45) (λ k, g (10 + k)%nat))
                    None)) as Hloop.
  { apply (fill_cols_draws (seq 0 5) empty_board g 2 2 31 45 2);
      [apply empty_board_shape5|done|apply NoDup_seq|done|done|lia]. }
  assert (get_cell (generateBoard g).1 2 2
          = Some (mkCell
                    (draw_nth 2 (range_numbers 31 45) (λ k, g (10 + k)%nat))
                    (Some "free"))) as Hfree.
  { destruct (fill_cols_spec (seq 0 5) empty_board g) as (Hshape & _);
      [apply empty_board_shape5|done|apply NoDup_seq|].
    unfold generateBoard.
    destruct (fill_cols (seq 0 5) empty_board g) as [b g'] eqn:Hfc.
    cbn [fst] in Hloop, Hshape |- *.
    by rewrite (get_cell_mark_free_center b _ Hshape Hloop). }
  set (d := draw_nth 2 (range_numbers 31 45) (λ k, g (10 + k)%nat)) in *.
  rewrite Hcenter in Hfree. injection Hfree as Hfree.
  exists n.
  split; [done|]. split; [by rewrite Hloop, <- Hfree|].
  split; [done|]. split.
  - pose proof (Forall_lookup_1 _ _ _ _ Hrange Hn) as Hb. simpl in Hb. lia.
  - intros r Hr Hne.
    destruct (lookup_lt_is_Some_2 picks r) as [m Hm]; [lia|].
    exists m. split.
    + rewrite (Hcells r m Hm). rewrite bool_decide_eq_false_2; [reflexivity|].
      intros [= ->]. exact (Hne eq_refl).
    + intros ->. apply Hne. exact (NoDup_lookup _ _ _ _ Hnd Hm Hn).
Qed.
End Draws.

(** * The properties of the specification *)

(** C1.  For a member of a room whose board is a full 5x5 board, the win
    check of claim-bingo returns, and it returns true exactly when a row, a
    column, the main diagonal or the anti-diagonal is complete for the
    caller, a cell counting when its [markedBy] is the caller's id or
    ["free"]; the acknowledgement is [ok] exactly in that case, and the
    handler leaves the players, hence every board, of every room unchanged. *)
Theorem claim_bingo_checks_lines
    (games : gmap string Game) (roomId sid : string)
    (game : Game) (player : Player) :
  games !! roomId = Some game →
  players game !! sid = Some player →
  board_wf (board player) →
  ∃ w, hasBingo sid (board player) = Ok w ∧
       (w = true ↔ wins sid (board player)) ∧
       (claim_bingo sid roomId games).2
       = Ok (if w then AckOk else AckError "Not a valid bingo") ∧
       ∀ rid, players <$> (claim_bingo sid roomId games).1 !! rid
              = players <$> games !! rid.
Proof.
  intros Hgame Hplayer Hwf.
  destruct (hasBingo_wf sid (board player) Hwf) as (w & Hcheck & Hspec).
  exists w. split_and!; [done|done| |].
  - by rewrite (claim_bingo_answer _ _ _ _ _ _ Hgame Hplayer Hcheck).
  - apply claim_bingo_players.
Qed.

Lemma claim_bingo_checks_lines_witness :
  ∃ w, hasBingo "alice" (board lobby_alice) = Ok w ∧
       (w = true ↔ wins "alice" (board lobby_alice)) ∧
       (claim_bingo "alice" "k3x9qa" lobby).2
       = Ok (if w then AckOk else AckError "Not a valid bingo") ∧
       ∀ rid, players <$> (claim_bingo "alice" "k3x9qa" lobby).1 !! rid
              = players <$> lobby !! rid.
Proof.
  apply (claim_bingo_checks_lines lobby "k3x9qa" "alice" lobby_game).
  - vm_compute. reflexivity.
  - vm_compute. reflexivity.
  - by_computation.
Defined.

(** C2.  On a room whose [calledNumbers] are distinct numbers of 1..75,
    any sequence of call-number events runs to the end; the numbers it
    hands out are pairwise distinct, lie in 1..75, were not called before,
    and are appended to [calledNumbers] in order.  Once [calledNumbers]
    holds 75 distinct values, a call by the host is refused with
    "All numbers called" and the registry is unchanged. *)
Theorem call_number_sequence
    (games : gmap string Game) (roomId : string) (game : Game)
    (calls : list (string * Rng)) :
  games !! roomId = Some game →
  called_ok game →
  ∃ games' acks game',
    run (call_actions roomId calls) games = (games', Ok acks) ∧
    games' !! roomId = Some game' ∧
    NoDup (returned_numbers acks) ∧
    Forall (λ n, 1 ≤ n ≤ 75) (returned_numbers acks) ∧
    (∀ n, n ∈ returned_numbers acks → n ∉ calledNumbers game) ∧
    calledNumbers game' = (calledNumbers game ++ returned_numbers acks)%list ∧
    (∀ (l : list Z) g,
       NoDup l → length l = 75%nat → l ⊆ calledNumbers game' →
       call_number (hostId game') roomId g games'
       = (games', Ok (AckError "All numbers called"))).
Proof.
  intros Hgame Hok.
  destruct (run_call_actions roomId calls games game Hgame Hok)
    as (acks & Hrun & _ & Hok').
  eexists _, acks, _. split; [exact Hrun|].
  destruct Hok' as [Hnd Hrange]. cbn [calledNumbers set_calledNumbers] in *.
  apply NoDup_app in Hnd as (_ & Hfresh & Hnd).
  apply Forall_app in Hrange as [_ Hrange].
  split_and!.
  - apply lookup_insert_eq.
  - done.
  - done.
  - intros n Hn Hin. by eapply Hfresh.
  - done.
  - intros l g Hl Hlen Hsub.
    eapply call_number_exhausted; [apply lookup_insert_eq| |done..].
    split; cbn [calledNumbers set_calledNumbers].
    + apply NoDup_app. split_and!; [by destruct Hok|done|done].
    + apply Forall_app. split; [by destruct Hok|done].
Qed.

Lemma call_number_sequence_witness :
  ∃ games' acks game',
    run (call_actions "k3x9qa" [("alice", rng0); ("bob", rng1); ("alice", rng1)])
      lobby = (games', Ok acks) ∧
    games' !! "k3x9qa" = Some game' ∧
    NoDup (returned_numbers acks) ∧
    Forall (λ n, 1 ≤ n ≤ 75) (returned_numbers acks) ∧
    (∀ n, n ∈ returned_numbers acks → n ∉ calledNumbers lobby_game) ∧
    calledNumbers game'
    = (calledNumbers lobby_game ++ returned_numbers acks)%list ∧
    (∀ (l : list Z) g,
       NoDup l → length l = 75%nat → l ⊆ calledNumbers game' →
       call_number (hostId game') "k3x9qa" g games'
       = (games', Ok (AckError "All numbers called"))).
Proof.
  apply (call_number_sequence lobby "k3x9qa" lobby_game).
  - vm_compute. reflexivity.
  - by_computation.
Defined.

(** The claim of C3 fails: after Alice's successful claim has recorded her
    as the winner, Bob's successful claim replaces her. *)
Lemma winner_overwritten :
  winner_of alice_won "k3x9qa" = Some (Some "alice") ∧
  (claim_bingo "bob" "k3x9qa" alice_won).2 = Ok AckOk ∧
  winner_of (claim_bingo "bob" "k3x9qa" alice_won).1 "k3x9qa"
  = Some (Some "bob").
Proof. vm_compute. done. Qed.

(** C3, amended.  A room's [winnerId] becomes an actor [w] (from anything
    else) only through a claim-bingo of [w] on that room whose win check
    succeeded; and every claim whose win check succeeds sets [winnerId] to
    the claimant, whatever was recorded before. *)
Theorem winner_set_by_successful_claim :
  (∀ a (games games' : gmap string Game) out roomId game game' w,
     handle a games = (games', out) →
     games !! roomId = Some game → games' !! roomId = Some game' →
     winnerId game' = Some w → winnerId game ≠ Some w →
     a = ClaimBingo w roomId ∧ out = Ok AckOk ∧
     ∃ player, players game !! w = Some player ∧
               hasBingo w (board player) = Ok true) ∧
  (∀ (games : gmap string Game) roomId game sid player,
     games !! roomId = Some game →
     players game !! sid = Some player →
     hasBingo sid (board player) = Ok true →
     claim_bingo sid roomId games
     = (<[roomId := set_winnerId game (Some sid)]> games, Ok AckOk)).
Proof.
  split.
  - intros a games games' out roomId game game' w. apply handle_winner.
  - intros games roomId game sid player Hgame Hplayer Hcheck.
    by rewrite (claim_bingo_answer _ _ _ _ _ _ Hgame Hplayer Hcheck).
Qed.

Lemma winner_set_by_successful_claim_witness :
  ClaimBingo "bob" "k3x9qa" = ClaimBingo "bob" "k3x9qa" ∧
  (claim_bingo "bob" "k3x9qa" alice_won).2 = Ok AckOk ∧
  ∃ player,
    players (default no_game (alice_won !! "k3x9qa")) !! "bob" = Some player ∧
    hasBingo "bob" (board player) = Ok true.
Proof.
  apply (proj1 winner_set_by_successful_claim
           (ClaimBingo "bob" "k3x9qa") alice_won
           (claim_bingo "bob" "k3x9qa" alice_won).1
           (claim_bingo "bob" "k3x9qa" alice_won).2
           "k3x9qa"
           (default no_game (alice_won !! "k3x9qa"))
           (default no_game
              ((claim_bingo "bob" "k3x9qa" alice_won).1 !! "k3x9qa"))
           "bob").
  - vm_compute. reflexivity.
  - vm_compute. reflexivity.
  - vm_compute. reflexivity.
  - vm_compute. reflexivity.
  - vm_compute. discriminate.
Defined.

(** The claim of C4 fails: the centre of Bob's fresh board is free, and his
    mark on it is acknowledged and leaves it unmarked. *)
Lemma mark_center_unmarks :
  marked_at lobby "k3x9qa" "bob" 2 2 = Some (Some "free") ∧
  (mark_cell "bob" "k3x9qa" 2 2 lobby).2 = Ok AckOk ∧
  marked_at (mark_cell "bob" "k3x9qa" 2 2 lobby).1 "k3x9qa" "bob" 2 2
  = Some None.
Proof. vm_compute. done. Qed.

(** C4, amended.  On every generated board the centre cell has
    [markedBy = "free"] and every other cell is unmarked; mark-cell on a
    free centre is acknowledged and sets its [markedBy] to [null], and a
    second mark sets it to the id of the player. *)
Theorem free_center_toggles :
  (∀ g r c, (r < 5)%nat → (c < 5)%nat →
     ∃ cell, get_cell (generateBoard g).1 r c = Some cell ∧
             markedBy cell
             = if bool_decide ((r, c) = (2%nat, 2%nat))
               then Some "free" else None) ∧
  (∀ (games : gmap string Game) roomId game sid player,
     games !! roomId = Some game →
     players game !! sid = Some player →
     board_wf (board player) →
     marked_at games roomId sid 2 2 = Some (Some "free") →
     ∃ games1 games2,
       mark_cell sid roomId 2 2 games = (games1, Ok AckOk) ∧
       marked_at games1 roomId sid 2 2 = Some None ∧
       mark_cell sid roomId 2 2 games1 = (games2, Ok AckOk) ∧
       marked_at games2 roomId sid 2 2 = Some (Some sid)).
Proof.
  split.
  - intros g r c Hr Hc.
    destruct (generateBoard_spec g) as [_ Hcols].
    destruct (Hcols c Hc) as (picks & Hpl & _ & _ & Hcells).
    destruct (lookup_lt_is_Some_2 picks r) as [n Hn]; [lia|].
    eexists. split; [by apply Hcells|done].
  - intros games roomId game sid player Hgame Hplayer Hwf Hfree.
    destruct (mark_cell_marked_at games roomId game sid player 2 2)
      as (m & games1 & game1 & player1 & Hm & Hmark1 & Hafter1 & Hgame1
          & Hplayer1 & Hwf1); [done..|lia|lia|].
    change (Z.to_nat 2) with 2%nat in *.
    rewrite Hfree in Hm. injection Hm as <-.
    destruct (mark_cell_marked_at games1 roomId game1 sid player1 2 2)
      as (m & games2 & game2 & player2 & Hm & Hmark2 & Hafter2 & _);
      [done..|lia|lia|].
    change (Z.to_nat 2) with 2%nat in *.
    rewrite Hafter1 in Hm. injection Hm as <-.
    by exists games1, games2.
Qed.

Lemma free_center_toggles_witness :
  ∃ games1 games2,
    mark_cell "bob" "k3x9qa" 2 2 lobby = (games1, Ok AckOk) ∧
    marked_at games1 "k3x9qa" "bob" 2 2 = Some None ∧
    mark_cell "bob" "k3x9qa" 2 2 games1 = (games2, Ok AckOk) ∧
    marked_at games2 "k3x9qa" "bob" 2 2 = Some (Some "bob").
Proof.
  apply (proj2 free_center_toggles lobby "k3x9qa" lobby_game "bob" lobby_bob).
  - vm_compute. reflexivity.
  - vm_compute. reflexivity.
  - by_computation.
  - vm_compute. reflexivity.
Defined.

(** The claim of C5 fails: the centre of Alice's board is marked ["free"],
    not by Alice, and her mark sets it to [null], not to her id. *)
Lemma mark_free_cell_clears_it :
  marked_at lobby "k3x9qa" "alice" 2 2 = Some (Some "free") ∧
  (mark_cell "alice" "k3x9qa" 2 2 lobby).2 = Ok AckOk ∧
  marked_at (mark_cell "alice" "k3x9qa" 2 2 lobby).1 "k3x9qa" "alice" 2 2
  = Some None ∧
  marked_at (mark_cell "alice" "k3x9qa" 2 2 lobby).1 "k3x9qa" "alice" 2 2
  ≠ Some (Some "alice").
Proof. vm_compute. split_and!; [done..|discriminate]. Qed.

(** C5, amended.  For a member with a full board and an in-range cell,
    mark-cell is acknowledged and sets the cell's [markedBy] to [null] when
    it is currently truthy (the member's id, ["free"] or any other
    non-empty string) and to the member's id when it is currently [null];
    the cell keeps its number, every other cell of the board is unchanged,
    and the registry differs only in that player's board. *)
Theorem mark_cell_toggle
    (games : gmap string Game) (roomId sid : string)
    (game : Game) (player : Player) (row col : Z) :
  games !! roomId = Some game →
  players game !! sid = Some player →
  board_wf (board player) →
  0 ≤ row < 5 → 0 ≤ col < 5 →
  ∃ cell board',
    get_cell (board player) (Z.to_nat row) (Z.to_nat col) = Some cell ∧
    mark_cell sid roomId row col games
    = (<[roomId :=
           set_players game
             (<[sid := set_board player board']> (players game))]> games,
       Ok AckOk) ∧
    get_cell board' (Z.to_nat row) (Z.to_nat col)
    = Some (mkCell (number cell)
              (if truthy (markedBy cell) then None else Some sid)) ∧
    (∀ r c, (r, c) ≠ (Z.to_nat row, Z.to_nat col) →
            get_cell board' r c = get_cell (board player) r c) ∧
    board_wf board'.
Proof.
  intros Hgame Hplayer Hwf Hrow Hcol.
  destruct (mark_cell_in_range games roomId game sid player row col)
    as (cell & Hcell & Hmark); [done..|].
  destruct (shape5_row (board player) (Z.to_nat row)) as (rw & Hrw & Hl);
    [by apply board_wf_shape5|lia|].
  eexists cell, _. split_and!.
  - done.
  - exact Hmark.
  - erewrite get_cell_set_cell_eq; [done|done|lia].
  - intros r c Hne. apply get_cell_set_cell_ne.
    destruct (decide (Z.to_nat row = r)) as [<-|]; [|by left].
    right. intros <-. by apply Hne.
  - by apply board_wf_set_cell.
Qed.

Lemma mark_cell_toggle_witness :
  ∃ cell board',
    get_cell (board lobby_alice) (Z.to_nat 0) (Z.to_nat 3) = Some cell ∧
    mark_cell "alice" "k3x9qa" 0 3 lobby
    = (<[ "k3x9qa" :=
           set_players lobby_game
             (<[ "alice" := set_board lobby_alice board']>
                (players lobby_game))]> lobby,
       Ok AckOk) ∧
    get_cell board' (Z.to_nat 0) (Z.to_nat 3)
    = Some (mkCell (number cell)
              (if truthy (markedBy cell) then None else Some "alice")) ∧
    (∀ r c, (r, c) ≠ (Z.to_nat 0, Z.to_nat 3) →
            get_cell board' r c = get_cell (board lobby_alice) r c) ∧
    board_wf board'.
Proof.
  apply (mark_cell_toggle lobby "k3x9qa" "alice" lobby_game lobby_alice 0 3).
  - vm_compute. reflexivity.
  - vm_compute. reflexivity.
  - by_computation.
  - lia.
  - lia.
Defined.

(** C6.  For a member with a full board, a row index outside 0..4 makes
    the handler throw: no acknowledgement is sent and the exception is not
    caught.  A column index outside 0..4 on an existing row is answered
    with "Invalid cell" and leaves the registry unchanged. *)
Theorem mark_cell_out_of_range
    (games : gmap string Game) (roomId sid : string)
    (game : Game) (player : Player) (row col : Z) :
  games !! roomId = Some game →
  players game !! sid = Some player →
  board_wf (board player) →
  (row < 0 ∨ 5 ≤ row → mark_cell sid roomId row col games = (games, Throw)) ∧
  (0 ≤ row < 5 → col < 0 ∨ 5 ≤ col →
   mark_cell sid roomId row col games
   = (games, Ok (AckError "Invalid cell"))).
Proof.
  intros Hgame Hplayer Hwf. split.
  - by apply mark_cell_row_out_of_range with game player.
  - by apply mark_cell_col_out_of_range with game player.
Qed.

Lemma mark_cell_out_of_range_witness :
  mark_cell "bob" "k3x9qa" 5 0 lobby = (lobby, Throw) ∧
  mark_cell "bob" "k3x9qa" (-1) 0 lobby = (lobby, Throw) ∧
  mark_cell "bob" "k3x9qa" 0 5 lobby = (lobby, Ok (AckError "Invalid cell")).
Proof.
  assert (lobby !! "k3x9qa" = Some lobby_game) as Hgame
    by (vm_compute; reflexivity).
  assert (players lobby_game !! "bob" = Some lobby_bob) as Hplayer
    by (vm_compute; reflexivity).
  assert (board_wf (board lobby_bob)) as Hwf by by_computation.
  split_and!.
  - apply (proj1 (mark_cell_out_of_range lobby "k3x9qa" "bob" lobby_game
                    lobby_bob 5 0 Hgame Hplayer Hwf)). lia.
  - apply (proj1 (mark_cell_out_of_range lobby "k3x9qa" "bob" lobby_game
                    lobby_bob (-1) 0 Hgame Hplayer Hwf)). lia.
  - apply (proj2 (mark_cell_out_of_range lobby "k3x9qa" "bob" lobby_game
                    lobby_bob 0 5 Hgame Hplayer Hwf)); lia.
Defined.

(** The claim of C7 fails: the centre of this generated board still holds
    the number drawn for it. *)
Lemma center_number_not_null :
  get_cell (generateBoard rng0).1 2 2 = Some (mkCell (Some 40) (Some "free")).
Proof. vm_compute. reflexivity. Qed.

(** C7, amended.  On every generated board the centre cell is the free
    cell: its [markedBy] is ["free"], and its [number] field is not [null]
    but still holds the integer drawn for that position (the third number
    drawn for the third column, which the loops wrote into the cell), a
    number of 31..45 that differs from the other four numbers of its
    column. *)
Theorem center_keeps_number (g : Rng) :
  ∃ n,
    get_cell (generateBoard g).1 2 2 = Some (mkCell (Some n) (Some "free")) ∧
    draw_nth 2 (range_numbers 31 45) (λ k, g (10 + k)%nat) = Some n ∧
    get_cell (fill_cols (seq 0 5) empty_board g).1 2 2
    = Some (mkCell (Some n) None) ∧
    31 ≤ n ≤ 45 ∧
    ∀ r, (r < 5)%nat → r ≠ 2%nat →
      ∃ m, get_cell (generateBoard g).1 r 2 = Some (mkCell (Some m) None) ∧
           m ≠ n.
Proof.
  destruct (center_is_third_draw g) as (n & Hdraw & Hloop & Hfree & Hr & Hcol).
  exists n. exact (conj Hfree (conj Hdraw (conj Hloop (conj Hr Hcol)))).
Qed.

Lemma center_keeps_number_witness :
  get_cell (generateBoard rng0).1 2 2 = Some (mkCell (Some 40) (Some "free")) ∧
  draw_nth 2 (range_numbers 31 45) (λ k, rng0 (10 + k)%nat) = Some 40 ∧
  ∃ m, get_cell (generateBoard rng0).1 0 2 = Some (mkCell (Some m) None) ∧
       m ≠ 40.
Proof.
  destruct (center_keeps_number rng0) as (n & Hfree & Hdraw & _ & _ & Hcol).
  assert (n = 40) as -> by (vm_compute in Hdraw; congruence).
  split_and!; [exact Hfree|exact Hdraw|].
  apply (Hcol 0%nat); lia.
Defined.

(** C8.  On every generated board, each column [c] of 0..4 holds five
    pairwise distinct integers of [15c+1 .. 15c+15], and the numbers at any
    two different positions of the board differ. *)
Theorem generateBoard_columns_distinct (g : Rng) :
  (∀ c, (c < 5)%nat →
     ∃ ns, column_numbers (generateBoard g).1 c = Some <$> ns ∧
           length ns = 5%nat ∧ NoDup ns ∧
           Forall (λ n, 15 * Z.of_nat c + 1 ≤ n ≤ 15 * Z.of_nat c + 15) ns) ∧
  (∀ r1 c1 r2 c2,
     (r1 < 5)%nat → (c1 < 5)%nat → (r2 < 5)%nat → (c2 < 5)%nat →
     (r1, c1) ≠ (r2, c2) →
     ∃ n1 n2, cell_number (generateBoard g).1 r1 c1 = Some n1 ∧
              cell_number (generateBoard g).1 r2 c2 = Some n2 ∧
              n1 ≠ n2).
Proof.
  destruct (generateBoard_spec g) as [_ Hcols]. split.
  - intros c Hc.
    destruct (Hcols c Hc) as (picks & Hpl & Hnd & Hrange & Hcells).
    exists picks. split_and!; [|done..].
    apply list_eq. intros r. unfold column_numbers.
    rewrite !list_lookup_fmap.
    destruct (decide (r < 5)%nat) as [Hr|Hr].
    + rewrite lookup_seq_lt by done. simpl.
      destruct (lookup_lt_is_Some_2 picks r) as [n Hn]; [lia|].
      rewrite Hn. simpl. f_equal.
      eapply cell_number_get_cell. by apply Hcells.
    + rewrite lookup_ge_None_2 by (rewrite length_seq; lia).
      by rewrite lookup_ge_None_2 by lia.
  - intros r1 c1 r2 c2 Hr1 Hc1 Hr2 Hc2 Hne.
    destruct (Hcols c1 Hc1) as (picks1 & Hpl1 & Hnd1 & Hrange1 & Hcells1).
    destruct (lookup_lt_is_Some_2 picks1 r1) as [n1 Hn1]; [lia|].
    destruct (decide (c1 = c2)) as [<-|Hc].
    + destruct (lookup_lt_is_Some_2 picks1 r2) as [n2 Hn2]; [lia|].
      exists n1, n2. split_and!.
      * eapply cell_number_get_cell. by apply Hcells1.
      * eapply cell_number_get_cell. by apply Hcells1.
      * intros <-. pose proof (NoDup_lookup _ _ _ _ Hnd1 Hn1 Hn2) as <-.
        by apply Hne.
    + destruct (Hcols c2 Hc2) as (picks2 & Hpl2 & Hnd2 & Hrange2 & Hcells2).
      destruct (lookup_lt_is_Some_2 picks2 r2) as [n2 Hn2]; [lia|].
      exists n1, n2. split_and!.
      * eapply cell_number_get_cell. by apply Hcells1.
      * eapply cell_number_get_cell. by apply Hcells2.
      * pose proof (Forall_lookup_1 _ _ _ _ Hrange1 Hn1) as Hb1.
        pose proof (Forall_lookup_1 _ _ _ _ Hrange2 Hn2) as Hb2.
        simpl in Hb1, Hb2. lia.
Qed.

Lemma generateBoard_columns_distinct_witness :
  (∃ ns, column_numbers (generateBoard rng0).1 2 = Some <$> ns ∧
         length ns = 5%nat ∧ NoDup ns ∧
         Forall (λ n, 15 * Z.of_nat 2 + 1 ≤ n ≤ 15 * Z.of_nat 2 + 15) ns) ∧
  (∃ n1 n2, cell_number (generateBoard rng0).1 0 1 = Some n1 ∧
            cell_number (generateBoard rng0).1 4 3 = Some n2 ∧
            n1 ≠ n2).
Proof.
  split.
  - apply (proj1 (generateBoard_columns_distinct rng0) 2%nat). lia.
  - apply (proj2 (generateBoard_columns_distinct rng0) 0 1 4 3)%nat;
      [lia..|discriminate].
Defined.

(** The claim of C9 fails: a create-room that draws the code of the room
    of Alice and Bob is acknowledged with that code and replaces their
    room by the new one. *)
Lemma create_room_overwrites :
  hostId <$> lobby !! "k3x9qa" = Some "alice" ∧
  (create_room "carol" "Carol" "k3x9qa" rng1 lobby).2
  = Ok (AckRoom "k3x9qa") ∧
  hostId <$> (create_room "carol" "Carol" "k3x9qa" rng1 lobby).1 !! "k3x9qa"
  = Some "carol" ∧
  board_of (create_room "carol" "Carol" "k3x9qa" rng1 lobby).1
    "k3x9qa" "alice" = None.
Proof. vm_compute. done. Qed.

(** C9, amended.  create-room performs no collision check: it is
    acknowledged with the drawn code and registers, under that code, a new
    unstarted room with no winner, no called number and the caller as host
    and only player, replacing whatever room was registered under the code;
    the rooms under every other code are unchanged. *)
Theorem create_room_registers
    (sid name roomId : string) (g : Rng) (games : gmap string Game) :
  (create_room sid name roomId g games).2 = Ok (AckRoom roomId) ∧
  (create_room sid name roomId g games).1 !! roomId
  = Some (mkGame roomId sid {[ sid := mkPlayer sid name (generateBoard g).1 ]}
            [] false None) ∧
  ∀ rid, rid ≠ roomId →
         (create_room sid name roomId g games).1 !! rid = games !! rid.
Proof.
  unfold create_room. cbn [fst snd]. split_and!.
  - done.
  - apply lookup_insert_eq.
  - intros rid Hne. by apply lookup_insert_ne.
Qed.

Lemma create_room_registers_witness :
  (create_room "carol" "Carol" "k3x9qa" rng1 lobby).1 !! "zz81mw"
  = lobby !! "zz81mw".
Proof.
  apply (proj2 (proj2 (create_room_registers "carol" "Carol" "k3x9qa" rng1
                         lobby)) "zz81mw").
  discriminate.
Defined.

(** C10.  In a room that has not been started, call-number by the host
    (while a number is available), mark-cell by a member on an in-range
    cell and claim-bingo by a member with a complete line are accepted; the
    three handlers behave the same whether [started] is false or true
    (forcing the flag before or after the event gives the same registry and
    the same answer); join-room is accepted in that room and refused once
    the flag is set. *)
Theorem lobby_actions_not_gated
    (games : gmap string Game) (roomId : string) (game : Game) :
  games !! roomId = Some game →
  started game = false →
  (∀ g, availableNumbers game ≠ [] →
     ∃ n, call_number (hostId game) roomId g games
          = (<[roomId :=
                 set_calledNumbers game (calledNumbers game ++ [n])]> games,
             Ok (AckNumber n))) ∧
  (∀ sid player row col,
     players game !! sid = Some player → board_wf (board player) →
     0 ≤ row < 5 → 0 ≤ col < 5 →
     (mark_cell sid roomId row col games).2 = Ok AckOk) ∧
  (∀ sid player,
     players game !! sid = Some player → board_wf (board player) →
     wins sid (board player) →
     claim_bingo sid roomId games
     = (<[roomId := set_winnerId game (Some sid)]> games, Ok AckOk)) ∧
  (∀ flag sid g row col,
     call_number sid roomId g (with_started flag roomId games)
     = (with_started flag roomId (call_number sid roomId g games).1,
        (call_number sid roomId g games).2) ∧
     mark_cell sid roomId row col (with_started flag roomId games)
     = (with_started flag roomId (mark_cell sid roomId row col games).1,
        (mark_cell sid roomId row col games).2) ∧
     claim_bingo sid roomId (with_started flag roomId games)
     = (with_started flag roomId (claim_bingo sid roomId games).1,
        (claim_bingo sid roomId games).2)) ∧
  (∀ sid name g,
     (∃ game', (join_room sid roomId name g games).2 = Ok (AckGame game')) ∧
     join_room sid roomId name g (with_started true roomId games)
     = (with_started true roomId games,
        Ok (AckError "Game already started"))).
Proof.
  intros Hgame Hlobby. split_and!.
  - intros g Havail.
    destruct (call_number_step games roomId game (hostId game) g Hgame)
      as [[msg Hcall]|(n & _ & _ & _ & Hcall)]; [|by exists n].
    exfalso. unfold call_number in Hcall. rewrite Hgame in Hcall.
    rewrite bool_decide_eq_false_2 in Hcall by (by intros []).
    rewrite bool_decide_eq_false_2 in Hcall
      by (intros Hl; by apply nil_length_inv in Hl).
    destruct (availableNumbers game !! _); simplify_eq.
  - intros sid player row col Hplayer Hwf Hrow Hcol.
    destruct (mark_cell_in_range games roomId game sid player row col)
      as (cell & _ & ->); done.
  - intros sid player Hplayer Hwf Hwins.
    destruct (hasBingo_wf sid (board player) Hwf) as (w & Hcheck & Hspec).
    apply Hspec in Hwins as ->.
    by rewrite (claim_bingo_answer _ _ _ _ _ _ Hgame Hplayer Hcheck).
  - intros flag sid g row col. split_and!.
    + apply call_number_with_started.
    + apply mark_cell_with_started.
    + apply claim_bingo_with_started.
  - intros sid name g. split.
    + unfold join_room. rewrite Hgame, Hlobby. by eexists.
    + unfold join_room, with_started. rewrite lookup_alter_eq, Hgame.
      reflexivity.
Qed.

Lemma lobby_actions_not_gated_witness :
  started lobby_game = false ∧
  (∃ n, call_number (hostId lobby_game) "k3x9qa" rng0 lobby
        = (<[ "k3x9qa" :=
               set_calledNumbers lobby_game
                 (calledNumbers lobby_game ++ [n])]> lobby,
           Ok (AckNumber n))) ∧
  (mark_cell "bob" "k3x9qa" 1 4 lobby).2 = Ok AckOk.
Proof.
  assert (lobby !! "k3x9qa" = Some lobby_game) as Hgame
    by (vm_compute; reflexivity).
  assert (started lobby_game = false) as Hlobby by (vm_compute; reflexivity).
  pose proof (lobby_actions_not_gated lobby "k3x9qa" lobby_game Hgame Hlobby)
    as (Hcall & Hmark & _).
  split_and!.
  - exact Hlobby.
  - apply Hcall. vm_compute. discriminate.
  - apply (Hmark "bob" lobby_bob 1 4).
    + vm_compute. reflexivity.
    + by_computation.
    + lia.
    + lia.
Defined.

(** * Further properties of the handlers *)

(** ** Refusals *)

Lemma handle_room_not_found
    (a : Action) (roomId : string) (games : gmap string Game) :
  action_room a = Some roomId →
  games !! roomId = None →
  handle a games = (games, Ok (AckError "Room not found")).
Proof.
  intros Hroom Hnone.
  destruct a; cbn [action_room] in Hroom; simplify_eq; cbn [handle].
  - unfold join_room. by rewrite Hnone.
  - unfold start_game. by rewrite Hnone.
  - unfold call_number. by rewrite Hnone.
  - unfold mark_cell. by rewrite Hnone.
  - unfold claim_bingo. by rewrite Hnone.
Qed.

Lemma not_host_refused
    (games : gmap string Game) (roomId sid : string) (game : Game) :
  games !! roomId = Some game →
  sid ≠ hostId game →
  start_game sid roomId games = (games, Ok (AckError "Only host can start")) ∧
  ∀ g, call_number sid roomId g games
       = (games, Ok (AckError "Only host can call numbers")).
Proof.
  intros Hgame Hsid. split.
  - unfold start_game. rewrite Hgame. by rewrite bool_decide_eq_true_2.
  - intros g. unfold call_number. rewrite Hgame.
    by rewrite bool_decide_eq_true_2.
Qed.

(** X1. Every event that names a room which is not registered is answered
    with "Room not found" and leaves the registry as it was. *)
Theorem unknown_room_refused
    (a : Action) (roomId : string) (games : gmap string Game) :
  action_room a = Some roomId →
  games !! roomId = None →
  handle a games = (games, Ok (AckError "Room not found")).
Proof. apply (handle_room_not_found a roomId). Qed.

Lemma unknown_room_refused_witness :
  handle (MarkCell "bob" "zz81mw" 7 7) lobby
  = (lobby, Ok (AckError "Room not found")).
Proof.
  apply (unknown_room_refused (MarkCell "bob" "zz81mw" 7 7) "zz81mw" lobby).
  - reflexivity.
  - vm_compute. reflexivity.
Defined.

(** X2.  start-game and call-number sent by a socket other than the host of
    the room are refused, each with its own message, and leave the registry
    as it was. *)
Theorem only_host_starts_and_calls
    (games : gmap string Game) (roomId sid : string) (game : Game) :
  games !! roomId = Some game →
  sid ≠ hostId game →
  start_game sid roomId games = (games, Ok (AckError "Only host can start")) ∧
  ∀ g, call_number sid roomId g games
       = (games, Ok (AckError "Only host can call numbers")).
Proof. apply not_host_refused. Qed.

Lemma only_host_starts_and_calls_witness :
  start_game "bob" "k3x9qa" lobby
  = (lobby, Ok (AckError "Only host can start")) ∧
  ∀ g, call_number "bob" "k3x9qa" g lobby
       = (lobby, Ok (AckError "Only host can call numbers")).
Proof.
  apply (only_host_starts_and_calls lobby "k3x9qa" "bob" lobby_game).
  - vm_compute. reflexivity.
  - vm_compute. discriminate.
Defined.

(** X3.  mark-cell and claim-bingo sent by a socket that is not a player of
    the room are refused with "Not in game" and leave the registry as it
    was; for mark-cell this holds for every row and column, in range or
    not. *)
Theorem only_members_mark_and_claim
    (games : gmap string Game) (roomId sid : string) (game : Game) :
  games !! roomId = Some game →
  players game !! sid = None →
  (∀ row col, mark_cell sid roomId row col games
              = (games, Ok (AckError "Not in game"))) ∧
  claim_bingo sid roomId games = (games, Ok (AckError "Not in game")).
Proof.
  intros Hgame Hsid. split.
  - intros row col. unfold mark_cell. by rewrite Hgame, Hsid.
  - unfold claim_bingo. by rewrite Hgame, Hsid.
Qed.

Lemma only_members_mark_and_claim_witness :
  (∀ row col, mark_cell "carol" "k3x9qa" row col lobby
              = (lobby, Ok (AckError "Not in game"))) ∧
  claim_bingo "carol" "k3x9qa" lobby = (lobby, Ok (AckError "Not in game")).
Proof.
  apply (only_members_mark_and_claim lobby "k3x9qa" "carol" lobby_game).
  - vm_compute. reflexivity.
  - vm_compute. reflexivity.
Defined.

(** X4.  An event that names a room changes no other room: after join-room,
    start-game, call-number, mark-cell or claim-bingo on [roomId], whatever
    its outcome, every other code maps to what it mapped to before. *)
Theorem other_rooms_untouched
    (a : Action) (roomId rid : string) (games : gmap string Game) :
  action_room a = Some roomId →
  rid ≠ roomId →
  (handle a games).1 !! rid = games !! rid.
Proof.
  intros Hroom Hne.
  destruct a; cbn [action_room] in Hroom; simplify_eq; cbn [handle].
  - unfold join_room. destruct (games !! roomId) as [game|]; [|done].
    destruct (started game); [done|]. cbn [fst]. by apply lookup_insert_ne.
  - unfold start_game. destruct (games !! roomId) as [game|]; [|done].
    case_bool_decide; [done|]. cbn [fst]. by apply lookup_insert_ne.
  - unfold call_number. destruct (games !! roomId) as [game|]; [|done].
    case_bool_decide; [done|]. case_bool_decide; [done|].
    destruct (availableNumbers game !! _); [|done].
    cbn [fst]. by apply lookup_insert_ne.
  - unfold mark_cell. destruct (games !! roomId) as [game|]; [|done].
    destruct (players game !! sid) as [player|]; [|done].
    destruct (index (board player) row) as [r|]; [|done].
    destruct (mjoin (index r col)) as [cell|]; [|done].
    cbn [fst]. by apply lookup_insert_ne.
  - unfold claim_bingo. destruct (games !! roomId) as [game|]; [|done].
    destruct (players game !! sid) as [player|]; [|done].
    destruct (hasBingo sid (board player)) as [[|]|]; [|done|done].
    cbn [fst]. by apply lookup_insert_ne.
Qed.

Lemma other_rooms_untouched_witness :
  (handle (StartGame "alice" "k3x9qa") two_rooms).1 !! "zz81mw"
  = two_rooms !! "zz81mw".
Proof.
  apply (other_rooms_untouched (StartGame "alice" "k3x9qa") "k3x9qa" "zz81mw").
  - reflexivity.
  - discriminate.
Defined.

(** ** Starting and joining *)

Lemma filter_not_called_nil (l : list Z) :
  filter (λ num : Z, num ∉ ([] : list Z)) l = l.
Proof.
  induction l as [|x l IH]; [done|].
  rewrite filter_cons_True by apply not_elem_of_nil. by rewrite IH.
Qed.

(** X5.  start-game by the host is accepted in every state of the room,
    also when the game is already started or already won: it sets
    [started], empties [calledNumbers] and keeps the players, their boards
    and the recorded winner.  After it all of 1..75 can be called again, and
    every join-room on the room is refused with "Game already started"
    without changing the registry. *)
Theorem start_game_resets_calls
    (games : gmap string Game) (roomId : string) (game : Game) :
  games !! roomId = Some game →
  start_game (hostId game) roomId games
  = (<[roomId := started_game game]> games, Ok AckOk) ∧
  availableNumbers (started_game game) = all_numbers ∧
  ∀ sid name g,
    join_room sid roomId name g (<[roomId := started_game game]> games)
    = (<[roomId := started_game game]> games,
       Ok (AckError "Game already started")).
Proof.
  intros Hgame. split_and!.
  - unfold start_game. rewrite Hgame.
    by rewrite bool_decide_eq_false_2 by (by intros []).
  - unfold availableNumbers, started_game. cbn [calledNumbers].
    apply filter_not_called_nil.
  - intros sid name g. unfold join_room. by rewrite lookup_insert_eq.
Qed.

Lemma start_game_resets_calls_witness :
  start_game (hostId (default no_game (alice_won !! "k3x9qa"))) "k3x9qa"
    alice_won
  = (<[ "k3x9qa" := started_game (default no_game (alice_won !! "k3x9qa"))]>
       alice_won,
     Ok AckOk) ∧
  availableNumbers (started_game (default no_game (alice_won !! "k3x9qa")))
  = all_numbers ∧
  ∀ sid name g,
    join_room sid "k3x9qa" name g
      (<[ "k3x9qa" := started_game (default no_game (alice_won !! "k3x9qa"))]>
         alice_won)
    = (<[ "k3x9qa" := started_game (default no_game (alice_won !! "k3x9qa"))]>
         alice_won,
       Ok (AckError "Game already started")).
Proof.
  apply (start_game_resets_calls alice_won "k3x9qa").
  vm_compute. reflexivity.
Defined.

(** X6.  join-room on a room that is not started is accepted for every
    socket, also one that is already a player of the room: the socket gets a
    newly generated board on which the centre is free and every other cell
    is unmarked (a board it had before is dropped with its marks), the
    other players are kept, and the acknowledgement carries the room as it
    is registered. *)
Theorem join_room_fresh_board
    (games : gmap string Game) (roomId sid name : string) (g : Rng)
    (game : Game) :
  games !! roomId = Some game →
  started game = false →
  join_room sid roomId name g games
  = (<[roomId := joined_game game sid name g]> games,
     Ok (AckGame (joined_game game sid name g))) ∧
  (∀ r c, (r < 5)%nat → (c < 5)%nat →
     marked_at (<[roomId := joined_game game sid name g]> games) roomId sid r c
     = Some (if bool_decide ((r, c) = (2%nat, 2%nat))
             then Some "free" else None)) ∧
  (∀ sid', sid' ≠ sid →
     players (joined_game game sid name g) !! sid' = players game !! sid').
Proof.
  intros Hgame Hlobby. split_and!.
  - unfold join_room. by rewrite Hgame, Hlobby.
  - intros r c Hr Hc.
    erewrite marked_at_lookup;
      [|apply lookup_insert_eq
       |unfold joined_game; cbn [players set_players]; apply lookup_insert_eq].
    cbn [board].
    destruct (generateBoard_spec g) as [_ Hcols].
    destruct (Hcols c Hc) as (picks & Hpl & _ & _ & Hcells).
    destruct (lookup_lt_is_Some_2 picks r) as [n Hn]; [lia|].
    by rewrite (Hcells r n Hn).
  - intros sid' Hne. unfold joined_game. cbn [players set_players].
    by apply lookup_insert_ne.
Qed.

Lemma join_room_fresh_board_witness :
  join_room "bob" "k3x9qa" "Bobby" rng0
    (mark_cell "bob" "k3x9qa" 0 0 lobby).1
  = (<[ "k3x9qa" :=
         joined_game
           (default no_game
              ((mark_cell "bob" "k3x9qa" 0 0 lobby).1 !! "k3x9qa"))
           "bob" "Bobby" rng0]> (mark_cell "bob" "k3x9qa" 0 0 lobby).1,
     Ok (AckGame
           (joined_game
              (default no_game
                 ((mark_cell "bob" "k3x9qa" 0 0 lobby).1 !! "k3x9qa"))
              "bob" "Bobby" rng0))).
Proof.
  apply (join_room_fresh_board (mark_cell "bob" "k3x9qa" 0 0 lobby).1
           "k3x9qa" "bob" "Bobby" rng0).
  - vm_compute. reflexivity.
  - vm_compute. reflexivity.
Defined.

(** ** Disconnecting *)

Section Disconnect.
Implicit Types (games : gmap string Game) (game : Game) (sid roomId : string).

(** What disconnect leaves under one code. *)
Lemma lookup_disconnect sid games rid :
  (disconnect sid games).1 !! rid
  = game ← games !! rid;
    match players game !! sid with
    | Some _ =>
        if bool_decide (size (delete sid (players game)) = 0%nat) then None
        else Some (set_players game (delete sid (players game)))
    | None => Some game
    end.
Proof. unfold disconnect. cbn [fst]. apply lookup_omap. Qed.

Lemma set_players_same game : set_players game (players game) = game.
Proof. by destruct game. Qed.

Lemma disconnect_remaining sid games rid game' :
  (disconnect sid games).1 !! rid = Some game' →
  ∃ game, games !! rid = Some game ∧
          game' = set_players game (delete sid (players game)).
Proof.
  rewrite lookup_disconnect. intros Hlook.
  destruct (games !! rid) as [game|] eqn:Hgame; [|done]. simpl in Hlook.
  exists game. split; [done|].
  destruct (players game !! sid) eqn:Hsid.
  - case_bool_decide; by simplify_eq.
  - simplify_eq. rewrite delete_id by done. by rewrite set_players_same.
Qed.

Lemma disconnect_absent sid games rid game :
  games !! rid = Some game → players game !! sid = None →
  (disconnect sid games).1 !! rid = Some game.
Proof.
  intros Hgame Hsid. rewrite lookup_disconnect, Hgame. simpl.
  by rewrite Hsid.
Qed.

Lemma disconnect_twice sid games :
  disconnect sid (disconnect sid games).1 = ((disconnect sid games).1, Ok NoAck).
Proof.
  assert ((disconnect sid (disconnect sid games).1).1 = (disconnect sid games).1)
    as Hsame.
  { apply map_eq. intros rid.
    rewrite (lookup_disconnect sid (disconnect sid games).1 rid).
    destruct ((disconnect sid games).1 !! rid) as [game'|] eqn:Hlook; [|done].
    simpl.
    destruct (disconnect_remaining _ _ _ _ Hlook) as (game & _ & ->).
    cbn [players set_players]. by rewrite lookup_delete_eq. }
  unfold disconnect at 1. f_equal. exact Hsame.
Qed.

Lemma disconnect_survives sid other games roomId game :
  games !! roomId = Some game →
  other ≠ sid → is_Some (players game !! other) →
  (disconnect sid games).1 !! roomId
  = Some (set_players game (delete sid (players game))).
Proof.
  intros Hgame Hne [p Hother]. rewrite lookup_disconnect, Hgame. simpl.
  destruct (players game !! sid) eqn:Hsid.
  - rewrite bool_decide_eq_false_2; [done|].
    intros Hsize. apply map_size_empty_iff in Hsize.
    apply (f_equal (λ m, m !! other)) in Hsize.
    rewrite lookup_delete_ne, Hother, lookup_empty in Hsize by done.
    discriminate Hsize.
  - rewrite delete_id by done. by rewrite set_players_same.
Qed.

End Disconnect.

(** X7.  After a socket disconnects it is a player of no room.  Every room
    that remains registered was registered before and differs only in that
    player being removed (host, called numbers, started flag, winner and the
    other players are as before); a room the socket was not in is
    unchanged. *)
Theorem disconnect_removes_player (sid : string) (games : gmap string Game) :
  (disconnect sid games).2 = Ok NoAck ∧
  (∀ rid game',
     (disconnect sid games).1 !! rid = Some game' →
     players game' !! sid = None ∧
     ∃ game, games !! rid = Some game ∧
             players game' = delete sid (players game) ∧
             game_id game' = game_id game ∧ hostId game' = hostId game ∧
             calledNumbers game' = calledNumbers game ∧
             started game' = started game ∧ winnerId game' = winnerId game) ∧
  (∀ rid game,
     games !! rid = Some game → players game !! sid = None →
     (disconnect sid games).1 !! rid = Some game).
Proof.
  split_and!.
  - done.
  - intros rid game' Hlook.
    destruct (disconnect_remaining _ _ _ _ Hlook) as (game & Hgame & ->).
    cbn [players set_players]. split; [apply lookup_delete_eq|].
    by exists game.
  - intros rid game. apply disconnect_absent.
Qed.

Lemma disconnect_removes_player_witness :
  (disconnect "bob" two_rooms).1 !! "zz81mw" = Some carol_game.
Proof.
  apply (proj2 (proj2 (disconnect_removes_player "bob" two_rooms))).
  - vm_compute. reflexivity.
  - vm_compute. reflexivity.
Defined.

(** X8.  Disconnecting the same socket a second time changes nothing. *)
Theorem disconnect_idempotent (sid : string) (games : gmap string Game) :
  disconnect sid (disconnect sid games).1
  = ((disconnect sid games).1, Ok NoAck).
Proof. apply disconnect_twice. Qed.



(** X10.  The host is not replaced when it leaves: if the host disconnects
    while another player is in the room, the room stays registered with the
    same [hostId], the host is no longer one of its players, and start-game
    and call-number are refused for every remaining player. *)
Theorem host_leaves_room_stuck
    (games : gmap string Game) (roomId other : string) (game : Game) :
  games !! roomId = Some game →
  other ≠ hostId game →
  is_Some (players game !! other) →
  ∃ game',
    (disconnect (hostId game) games).1 !! roomId = Some game' ∧
    hostId game' = hostId game ∧
    players game' !! hostId game = None ∧
    is_Some (players game' !! other) ∧
    ∀ sid, is_Some (players game' !! sid) →
      start_game sid roomId (disconnect (hostId game) games).1
      = ((disconnect (hostId game) games).1,
         Ok (AckError "Only host can start")) ∧
      ∀ g, call_number sid roomId g (disconnect (hostId game) games).1
           = ((disconnect (hostId game) games).1,
              Ok (AckError "Only host can call numbers")).
Proof.
  intros Hgame Hne Hother.
  pose proof (disconnect_survives (hostId game) other games roomId game
                Hgame Hne Hother) as Hlook.
  eexists. split; [exact Hlook|]. cbn [hostId players set_players].
  split_and!.
  - done.
  - apply lookup_delete_eq.
  - by rewrite lookup_delete_ne.
  - intros sid [p Hsid].
    apply (not_host_refused _ _ _ _ Hlook). cbn [hostId set_players].
    intros ->. by rewrite lookup_delete_eq in Hsid.
Qed.

Lemma host_leaves_room_stuck_witness :
  ∃ game',
    (disconnect (hostId lobby_game) lobby).1 !! "k3x9qa" = Some game' ∧
    hostId game' = hostId lobby_game ∧
    players game' !! hostId lobby_game = None ∧
    is_Some (players game' !! "bob") ∧
    ∀ sid, is_Some (players game' !! sid) →
      start_game sid "k3x9qa" (disconnect (hostId lobby_game) lobby).1
      = ((disconnect (hostId lobby_game) lobby).1,
         Ok (AckError "Only host can start")) ∧
      ∀ g, call_number sid "k3x9qa" g (disconnect (hostId lobby_game) lobby).1
           = ((disconnect (hostId lobby_game) lobby).1,
              Ok (AckError "Only host can call numbers")).
Proof.
  apply (host_leaves_room_stuck lobby "k3x9qa" "bob" lobby_game).
  - vm_compute. reflexivity.
  - vm_compute. discriminate.
  - vm_compute. by eexists.
Defined.

(** ** Marking twice *)

Section MarkTwice.
Implicit Types (b : Board) (games : gmap string Game) (sid roomId : string).

Lemma set_cell_set_cell b r c (x y : Slot) :
  set_cell (set_cell b r c x) r c y = set_cell b r c y.
Proof.
  unfold set_cell. destruct (b !! r) as [row|] eqn:Hrow.
  - rewrite list_lookup_insert_eq by (by eapply lookup_lt_Some).
    by rewrite !list_insert_insert_eq.
  - by rewrite Hrow.
Qed.

Lemma set_cell_same b r c cell :
  get_cell b r c = Some cell → set_cell b r c (Some cell) = b.
Proof.
  unfold get_cell, set_cell. intros Hcell.
  destruct (b !! r) as [row|] eqn:Hrow; [|done]. simpl in Hcell.
  destruct (row !! c) as [[cell'|]|] eqn:Hslot; simpl in Hcell; simplify_eq.
  rewrite (list_insert_id row c (Some cell)) by done.
  by apply list_insert_id.
Qed.

Lemma set_board_same (player : Player) : set_board player (board player) = player.
Proof. by destruct player. Qed.

(** Two marks by the same player on a cell that was unmarked. *)
Lemma mark_cell_twice games roomId game sid player row col :
  games !! roomId = Some game →
  players game !! sid = Some player →
  board_wf (board player) →
  0 ≤ row < 5 → 0 ≤ col < 5 →
  sid ≠ "" →
  marked_at games roomId sid (Z.to_nat row) (Z.to_nat col) = Some None →
  ∃ games1,
    mark_cell sid roomId row col games = (games1, Ok AckOk) ∧
    marked_at games1 roomId sid (Z.to_nat row) (Z.to_nat col)
    = Some (Some sid) ∧
    mark_cell sid roomId row col games1 = (games, Ok AckOk).
Proof.
  intros Hgame Hplayer Hwf Hrow Hcol Hsid Hnull.
  destruct (mark_cell_in_range games roomId game sid player row col)
    as (cell & Hcell & Hmark1); [done..|].
  rewrite (marked_at_lookup _ _ _ _ _ _ _ Hgame Hplayer), Hcell in Hnull.
  destruct cell as [num m]. simpl in Hnull. simplify_eq.
  cbn [truthy markedBy set_markedBy number] in Hmark1.
  destruct (shape5_row (board player) (Z.to_nat row)) as (rw & Hrw & Hl);
    [by apply board_wf_shape5|lia|].
  set (cell1 := mkCell num (Some sid)) in *.
  set (b1 := set_cell (board player) (Z.to_nat row) (Z.to_nat col) (Some cell1))
    in *.
  set (player1 := set_board player b1) in *.
  set (game1 := set_players game (<[sid := player1]> (players game))) in *.
  assert (get_cell b1 (Z.to_nat row) (Z.to_nat col) = Some cell1) as Hcell1.
  { unfold b1. eapply get_cell_set_cell_eq; [done|lia]. }
  exists (<[roomId := game1]> games). split_and!.
  - exact Hmark1.
  - erewrite marked_at_lookup;
      [|apply lookup_insert_eq|cbn [players game1 set_players];
                               apply lookup_insert_eq].
    cbn [board player1 set_board]. by rewrite Hcell1.
  - destruct (mark_cell_in_range (<[roomId := game1]> games) roomId game1 sid
                player1 row col)
      as (cell2 & Hcell2 & Hmark2).
    { apply lookup_insert_eq. }
    { cbn [players game1 set_players]. apply lookup_insert_eq. }
    { cbn [board player1 set_board]. by apply board_wf_set_cell. }
    { done. }
    { done. }
    cbn [board player1 set_board] in Hcell2. rewrite Hcell1 in Hcell2.
    injection Hcell2 as <-. rewrite Hmark2. f_equal.
    subst game1 player1 b1 cell1.
    cbn [truthy markedBy set_markedBy number board set_board players
         set_players].
    rewrite bool_decide_eq_true_2 by done.
    unfold set_markedBy. cbn [number].
    rewrite set_cell_set_cell, (set_cell_same _ _ _ _ Hcell).
    change (set_board (set_board player ?b) (board player))
      with (set_board player (board player)).
    rewrite set_board_same, !insert_insert_eq.
    rewrite (insert_id (players game) sid player) by done.
    change (set_players (set_players game ?ps) (players game))
      with (set_players game (players game)).
    destruct game. by apply insert_id.
Qed.
End MarkTwice.

(** X11.  A player who marks one of its unmarked cells and marks it again
    is back where it started: the first mark records the player's id on the
    cell, the second clears it, and the registry after the second mark
    equals the registry before the first. *)
Theorem mark_cell_twice_restores
    (games : gmap string Game) (roomId sid : string)
    (game : Game) (player : Player) (row col : Z) :
  games !! roomId = Some game →
  players game !! sid = Some player →
  board_wf (board player) →
  0 ≤ row < 5 → 0 ≤ col < 5 →
  sid ≠ "" →
  marked_at games roomId sid (Z.to_nat row) (Z.to_nat col) = Some None →
  ∃ games1,
    mark_cell sid roomId row col games = (games1, Ok AckOk) ∧
    marked_at games1 roomId sid (Z.to_nat row) (Z.to_nat col)
    = Some (Some sid) ∧
    mark_cell sid roomId row col games1 = (games, Ok AckOk).
Proof. apply mark_cell_twice. Qed.

Lemma mark_cell_twice_restores_witness :
  ∃ games1,
    mark_cell "bob" "k3x9qa" 4 1 lobby = (games1, Ok AckOk) ∧
    marked_at games1 "k3x9qa" "bob" (Z.to_nat 4) (Z.to_nat 1)
    = Some (Some "bob") ∧
    mark_cell "bob" "k3x9qa" 4 1 games1 = (lobby, Ok AckOk).
Proof.
  apply (mark_cell_twice_restores lobby "k3x9qa" "bob" lobby_game lobby_bob).
  - vm_compute. reflexivity.
  - vm_compute. reflexivity.
  - by_computation.
  - lia.
  - lia.
  - discriminate.
  - vm_compute. reflexivity.
Defined.

(** ** Which numbers can be called *)

Section Drawing.
Implicit Types (games : gmap string Game) (game : Game) (roomId : string).

Lemma call_number_host_index games roomId game g k n :
  games !! roomId = Some game →
  (random_below (length (availableNumbers game)) g).1 = k →
  availableNumbers game !! k = Some n →
  call_number (hostId game) roomId g games
  = (<[roomId := set_calledNumbers game (calledNumbers game ++ [n])]> games,
     Ok (AckNumber n)).
Proof.
  intros Hgame Hk Hn. unfold call_number. rewrite Hgame.
  rewrite bool_decide_eq_false_2 by (by intros []).
  rewrite bool_decide_eq_false_2.
  - by rewrite Hk, Hn.
  - intros Hlen. apply nil_length_inv in Hlen. by rewrite Hlen in Hn.
Qed.

Lemma call_number_host_succeeds games roomId game g :
  games !! roomId = Some game →
  (∃ n, (1 ≤ n ≤ 75) ∧ n ∉ calledNumbers game) →
  ∃ n, call_number (hostId game) roomId g games
       = (<[roomId := set_calledNumbers game (calledNumbers game ++ [n])]>
            games,
          Ok (AckNumber n)).
Proof.
  intros Hgame (n0 & Hr & Hnew).
  assert (n0 ∈ availableNumbers game) as Hin
    by by apply elem_of_availableNumbers.
  assert (0 < length (availableNumbers game))%nat as Hpos.
  { destruct (availableNumbers game); [by apply elem_of_nil in Hin|simpl; lia]. }
  pose proof (random_below_lt _ g Hpos) as Hk.
  destruct (lookup_lt_is_Some_2 _ _ Hk) as [n Hn].
  exists n. by eapply call_number_host_index.
Qed.
End Drawing.

(** X12.  call-number by the host hands out a number exactly when some
    number of 1..75 has not been called, and the choice among the uncalled
    numbers is unrestricted: for each of them there are draws for which it
    is the number handed out and appended to [calledNumbers]. *)
Theorem call_number_draws_any_uncalled
    (games : gmap string Game) (roomId : string) (game : Game) :
  games !! roomId = Some game →
  (∀ g, (∃ n, (call_number (hostId game) roomId g games).2 = Ok (AckNumber n))
        ↔ ∃ n, (1 ≤ n ≤ 75) ∧ n ∉ calledNumbers game) ∧
  (∀ n, 1 ≤ n ≤ 75 → n ∉ calledNumbers game →
     ∃ g, call_number (hostId game) roomId g games
          = (<[roomId := set_calledNumbers game (calledNumbers game ++ [n])]>
               games,
             Ok (AckNumber n))).
Proof.
  intros Hgame. split.
  - intros g. split.
    + intros [n Hn].
      destruct (call_number_step games roomId game (hostId game) g Hgame)
        as [[msg Hcall]|(n' & _ & Hr & Hnew & Hcall)];
        rewrite Hcall in Hn; simplify_eq.
      by eexists.
    + intros Hsome.
      destruct (call_number_host_succeeds games roomId game g Hgame Hsome)
        as [n ->].
      by exists n.
  - intros n Hr Hnew.
    assert (n ∈ availableNumbers game) as Hin
      by by apply elem_of_availableNumbers.
    apply list_elem_of_lookup in Hin as [k Hk].
    exists (λ _, k). eapply call_number_host_index; [done| |done].
    apply random_below_any. by eapply lookup_lt_Some.
Qed.

Lemma call_number_draws_any_uncalled_witness :
  ∃ g, call_number (hostId lobby_game) "k3x9qa" g lobby
       = (<[ "k3x9qa" :=
              set_calledNumbers lobby_game (calledNumbers lobby_game ++ [42])]>
            lobby,
          Ok (AckNumber 42)).
Proof.
  apply (proj2 (call_number_draws_any_uncalled lobby "k3x9qa" lobby_game
                  ltac:(vm_compute; reflexivity)) 42).
  - lia.
  - vm_compute. intros H. inversion H.
Defined.

(** ** A board that was just generated *)

Section FreshBoard.
Lemma fresh_cell_does_not_count g sid r c :
  (r < 5)%nat → (c < 5)%nat → (r, c) ≠ (2%nat, 2%nat) →
  ¬ counts_for sid (generateBoard g).1 r c.
Proof.
  intros Hr Hc Hne (cell & Hcell & Hmarked).
  destruct (generateBoard_spec g) as [_ Hcols].
  destruct (Hcols c Hc) as (picks & Hpl & _ & _ & Hcells).
  destruct (lookup_lt_is_Some_2 picks r) as [n Hn]; [lia|].
  rewrite (Hcells r n Hn) in Hcell.
  rewrite bool_decide_eq_false_2 in Hcell by done.
  simplify_eq. simpl in Hmarked. by destruct Hmarked.
Qed.

Lemma fresh_board_loses g sid : hasBingo sid (generateBoard g).1 = Ok false.
Proof.
  destruct (hasBingo_wf sid (generateBoard g).1 (generateBoard_wf g))
    as (w & Hcheck & Hspec).
  rewrite Hcheck. f_equal. destruct w; [|done]. exfalso.
  destruct (proj1 Hspec eq_refl) as [(r & Hr & Hrow)|[(c & Hc & Hcol)|[Hd|Ha]]].
  - apply (fresh_cell_does_not_count g sid r 0); [done|lia| |apply Hrow; lia].
    intros [= _ H].
  - apply (fresh_cell_does_not_count g sid 0 c); [lia|done| |apply Hcol; lia].
    intros [= H _].
  - apply (fresh_cell_does_not_count g sid 0 0); [lia|lia| |apply Hd; lia].
    intros [= H _].
  - apply (fresh_cell_does_not_count g sid 0 4); [lia|lia| |apply Ha; lia].
    intros [= H _].
Qed.
End FreshBoard.

(** X13.  A board that was just generated has no complete line for anybody:
    the win check on it returns false, and a claim-bingo sent by the creator
    of a room right after create-room is answered with "Not a valid bingo"
    and changes nothing. *)
Theorem fresh_board_has_no_bingo
    (g : Rng) (sid name roomId : string) (games : gmap string Game) :
  hasBingo sid (generateBoard g).1 = Ok false ∧
  claim_bingo sid roomId (create_room sid name roomId g games).1
  = ((create_room sid name roomId g games).1,
     Ok (AckError "Not a valid bingo")).
Proof.
  split; [apply fresh_board_loses|].
  unfold create_room. cbn [fst].
  erewrite claim_bingo_answer;
    [|apply lookup_insert_eq|cbn [players]; apply lookup_singleton_eq
     |cbn [board]; apply fresh_board_loses].
  done.
Qed.

(** ** Marking a whole row and claiming *)

Section RowThenClaim.
Implicit Types (games : gmap string Game) (game : Game) (sid roomId : string).

(** Marks of one player on unmarked cells of one row, one after the
    other. *)
Lemma run_mark_cols sid roomId (row : Z) cols : ∀ games game player,
  games !! roomId = Some game →
  players game !! sid = Some player →
  board_wf (board player) →
  0 ≤ row < 5 → sid ≠ "" →
  NoDup cols → Forall (λ c, (c < 5)%nat) cols →
  (∀ c, c ∈ cols →
     markedBy <$> get_cell (board player) (Z.to_nat row) c = Some None) →
  ∃ b',
    run ((λ c : nat, MarkCell sid roomId row (Z.of_nat c)) <$> cols) games
    = (<[roomId :=
           set_players game (<[sid := set_board player b']> (players game))]>
         games,
       Ok (replicate (length cols) AckOk)) ∧
    board_wf b' ∧
    (∀ c, c ∈ cols →
       markedBy <$> get_cell b' (Z.to_nat row) c = Some (Some sid)) ∧
    (∀ r c, r ≠ Z.to_nat row ∨ c ∉ cols →
       get_cell b' r c = get_cell (board player) r c).
Proof.
  induction cols as [|col cols IH];
    intros games game player Hgame Hplayer Hwf Hrow Hsid Hnd Hcols Hnull.
  - exists (board player). split_and!.
    + simpl. f_equal. rewrite set_board_same.
      rewrite (insert_id (players game) sid player) by done.
      rewrite set_players_same. symmetry. by apply insert_id.
    + done.
    + intros c Hc. by apply elem_of_nil in Hc.
    + done.
  - apply NoDup_cons in Hnd as [Hfresh Hnd].
    apply Forall_cons in Hcols as [Hcol Hcols].
    destruct (mark_cell_in_range games roomId game sid player row
                (Z.of_nat col))
      as (cell & Hcell & Hmark); [done..|lia|].
    rewrite Nat2Z.id in Hcell, Hmark.
    pose proof (Hnull col ltac:(left)) as Hcol_null.
    rewrite Hcell in Hcol_null. simpl in Hcol_null.
    injection Hcol_null as Hcol_null.
    rewrite Hcol_null in Hmark. cbn [truthy] in Hmark.
    destruct (shape5_row (board player) (Z.to_nat row)) as (rw & Hrw & Hl);
      [by apply board_wf_shape5|lia|].
    set (b1 := set_cell (board player) (Z.to_nat row) col
                 (Some (set_markedBy cell (Some sid)))) in *.
    destruct (IH (<[roomId :=
                     set_players game
                       (<[sid := set_board player b1]> (players game))]> games)
                (set_players game
                   (<[sid := set_board player b1]> (players game)))
                (set_board player b1))
      as (b' & Hrun & Hwf' & Hmarked & Hsame).
    { apply lookup_insert_eq. }
    { cbn [players set_players]. apply lookup_insert_eq. }
    { cbn [board set_board]. by apply board_wf_set_cell. }
    { done. }
    { done. }
    { done. }
    { done. }
    { intros c Hc. cbn [board set_board]. unfold b1.
      rewrite get_cell_set_cell_ne; [by apply Hnull; right|].
      right. by intros ->. }
    exists b'. split_and!.
    + cbn [fmap list_fmap run handle]. rewrite Hmark.
      change (run (list_fmap _ _ ?f cols))
        with (run (f <$> cols)).
      rewrite Hrun. cbn [players set_players board set_board].
      rewrite !insert_insert_eq. done.
    + done.
    + intros c Hc. apply elem_of_cons in Hc as [->|Hc]; [|by apply Hmarked].
      rewrite Hsame by (by right). cbn [board set_board]. unfold b1.
      erewrite get_cell_set_cell_eq; [done|done|lia].
    + intros r c Hrc. rewrite Hsame.
      * cbn [board set_board]. unfold b1. apply get_cell_set_cell_ne.
        destruct Hrc as [Hr|Hc]; [by left|].
        right. intros <-. apply Hc. by left.
      * destruct Hrc as [Hr|Hc]; [by left|].
        right. intros Hin. apply Hc. by right.
Qed.

(** A run that completes, followed by further events. *)
Lemma run_app acts : ∀ acts' games games1 acks,
  run acts games = (games1, Ok acks) →
  run (acts ++ acts') games
  = ((run acts' games1).1,
     acks' ← (run acts' games1).2; Ok (acks ++ acks')%list).
Proof.
  induction acts as [|a acts IH]; intros acts' games games1 acks Hrun.
  - simpl in Hrun. simplify_eq. simpl.
    by destruct (run acts' games1) as [games2 [acks'|]].
  - simpl in Hrun. simpl.
    destruct (handle a games) as [games0 [ack|]]; [|done].
    destruct (run acts games0) as [games3 [acks0|]] eqn:Hrest;
      simpl in Hrun; simplify_eq.
    rewrite (IH acts' games0 games1 acks0 Hrest).
    by destruct (run acts' games1) as [games2 [acks'|]].
Qed.

Lemma row_marked_wins sid (b : Board) r :
  (r < 5)%nat →
  (∀ c, c ∈ seq 0 5 → markedBy <$> get_cell b r c = Some (Some sid)) →
  wins sid b.
Proof.
  intros Hr Hmarked. left. exists r. split; [done|].
  intros c Hc. specialize (Hmarked c ltac:(apply elem_of_seq; lia)).
  destruct (get_cell b r c) as [cell|] eqn:Hcell; simpl in Hmarked;
    simplify_eq.
  exists cell. split; [done|]. by left.
Qed.
End RowThenClaim.

(** X14.  A player who marks the five cells of a row of its board, all of
    them unmarked before, and then claims bingo wins: the five marks and the
    claim are acknowledged, and the player becomes the recorded winner of
    the room. *)
Theorem mark_row_then_claim_wins
    (games : gmap string Game) (roomId sid : string)
    (game : Game) (player : Player) (row : Z) :
  games !! roomId = Some game →
  players game !! sid = Some player →
  board_wf (board player) →
  0 ≤ row < 5 → sid ≠ "" →
  (∀ c, (c < 5)%nat → marked_at games roomId sid (Z.to_nat row) c = Some None) →
  ∃ games',
    run (mark_row sid roomId row ++ [ClaimBingo sid roomId]) games
    = (games', Ok (replicate 6 AckOk)) ∧
    winner_of games' roomId = Some (Some sid).
Proof.
  intros Hgame Hplayer Hwf Hrow Hsid Hnull.
  destruct (run_mark_cols sid roomId row (seq 0 5) games game player)
    as (b' & Hrun & Hwf' & Hmarked & _); [done..|apply NoDup_seq| | |].
  { apply Forall_forall. intros c Hc. apply elem_of_seq in Hc. lia. }
  { intros c Hc. apply elem_of_seq in Hc.
    rewrite <- (marked_at_lookup games roomId game sid player) by done.
    apply Hnull. lia. }
  set (player' := set_board player b') in *.
  set (game' := set_players game (<[sid := player']> (players game))) in *.
  assert (hasBingo sid b' = Ok true) as Hcheck.
  { destruct (hasBingo_wf sid b' Hwf') as (w & -> & Hspec). f_equal.
    apply Hspec. apply (row_marked_wins sid b' (Z.to_nat row)); [lia|done]. }
  exists (<[roomId := set_winnerId game' (Some sid)]> games). split.
  - unfold mark_row. rewrite (run_app _ _ _ _ _ Hrun).
    cbn [run handle].
    rewrite (claim_bingo_answer sid roomId _ game' player' true);
      [|apply lookup_insert_eq
       |cbn [players game' set_players]; apply lookup_insert_eq
       |done].
    cbn [fst snd]. by rewrite insert_insert_eq.
  - unfold winner_of. by rewrite lookup_insert_eq.
Qed.

Lemma mark_row_then_claim_wins_witness :
  ∃ games',
    run (mark_row "bob" "k3x9qa" 3 ++ [ClaimBingo "bob" "k3x9qa"]) lobby
    = (games', Ok (replicate 6 AckOk)) ∧
    winner_of games' "k3x9qa" = Some (Some "bob").
Proof.
  apply (mark_row_then_claim_wins lobby "k3x9qa" "bob" lobby_game lobby_bob 3).
  - vm_compute. reflexivity.
  - vm_compute. reflexivity.
  - by_computation.
  - lia.
  - discriminate.
  - intros c Hc.
    do 5 (destruct c as [|c]; [vm_compute; reflexivity|]). lia.
Defined.

(** ** What every reachable registry satisfies *)

Section RegistryInvariant.
Implicit Types (b : Board) (games : gmap string Game) (game : Game).

(** Marking a cell keeps every number of the board. *)
Lemma cell_number_set_markedBy b r c cell m r' c' :
  get_cell b r c = Some cell →
  cell_number (set_cell b r c (Some (set_markedBy cell m))) r' c'
  = cell_number b r' c'.
Proof.
  intros Hcell. unfold cell_number.
  destruct (decide (r = r' ∧ c = c')) as [[<- <-]|Hne].
  - rewrite Hcell. unfold get_cell in Hcell |- *. unfold set_cell.
    destruct (b !! r) as [row|] eqn:Hrow; [|done]. simpl in Hcell.
    rewrite list_lookup_insert_eq by (by eapply lookup_lt_Some). simpl.
    destruct (row !! c) as [slot|] eqn:Hslot; [|done].
    rewrite list_lookup_insert_eq by (by eapply lookup_lt_Some). done.
  - rewrite get_cell_set_cell_ne; [done|].
    destruct (decide (r = r')) as [<-|]; [|by left].
    right. intros <-. by apply Hne.
Qed.

Lemma index_Some {A} (arr : list A) (i : Z) (x : A) :
  index arr i = Some x → arr !! Z.to_nat i = Some x.
Proof. unfold index. by case_bool_decide. Qed.

(** The cell the mark handler reads is the one [get_cell] reads. *)
Lemma index_get_cell b (row col : Z) (r : list Slot) cell :
  index b row = Some r → mjoin (index r col) = Some cell →
  get_cell b (Z.to_nat row) (Z.to_nat col) = Some cell.
Proof.
  intros Hr Hcell. unfold get_cell.
  rewrite (index_Some _ _ _ Hr). simpl.
  destruct (index r col) as [slot|] eqn:Hslot; [|done].
  by rewrite (index_Some _ _ _ Hslot).
Qed.

Lemma columns_ok_set_markedBy b r c cell m :
  get_cell b r c = Some cell → columns_ok b →
  columns_ok (set_cell b r c (Some (set_markedBy cell m))).
Proof.
  intros Hcell Hok col Hcol.
  destruct (Hok col Hcol) as (ns & Hns & Hrest).
  exists ns. split; [|done]. rewrite <- Hns. unfold column_numbers.
  apply list_fmap_ext. intros i r' _. by apply cell_number_set_markedBy.
Qed.

Lemma columns_ok_generateBoard g : columns_ok (generateBoard g).1.
Proof.
  intros c Hc.
  destruct (generateBoard_spec g) as [_ Hcols].
  destruct (Hcols c Hc) as (picks & Hpl & Hnd & Hrange & Hcells).
  exists picks. split_and!; [|done..].
  apply list_eq. intros r. unfold column_numbers.
  rewrite !list_lookup_fmap.
  destruct (decide (r < 5)%nat) as [Hr|Hr].
  - rewrite lookup_seq_lt by done. simpl.
    destruct (lookup_lt_is_Some_2 picks r) as [n Hn]; [lia|].
    rewrite Hn. simpl. f_equal.
    eapply cell_number_get_cell. by apply Hcells.
  - rewrite lookup_ge_None_2 by (rewrite length_seq; lia).
    by rewrite lookup_ge_None_2 by lia.
Qed.

Lemma registry_ok_insert games roomId game :
  registry_ok games → room_ok roomId game →
  registry_ok (<[roomId := game]> games).
Proof.
  intros Hok Hroom rid game' Hlook.
  rewrite lookup_insert in Hlook. case_decide; simplify_eq; [done|].
  by apply Hok.
Qed.

Lemma room_ok_insert_player roomId game sid (p : Player) :
  room_ok roomId game →
  player_id p = sid → board_wf (board p) → columns_ok (board p) →
  room_ok roomId (set_players game (<[sid := p]> (players game))).
Proof.
  intros (Hid & Hne & Hcalled & Hplayers) Hpid Hwf Hcols.
  split_and!; [done|apply insert_non_empty|done|].
  intros sid' p' Hlook. cbn [players set_players] in Hlook.
  rewrite lookup_insert in Hlook. case_decide; simplify_eq; [done|].
  by apply Hplayers.
Qed.

(** Every handler keeps the registry invariant. *)
Lemma handle_registry_ok a games games' out :
  registry_ok games → handle a games = (games', out) → registry_ok games'.
Proof.
  intros Hok Hstep. destruct a; cbn [handle] in Hstep.
  - unfold create_room in Hstep. simplify_eq.
    apply registry_ok_insert; [done|].
    split_and!; [done|apply insert_non_empty|split; constructor|].
    intros sid' p Hlook. cbn [players] in Hlook.
    apply lookup_singleton_Some in Hlook as [<- <-]. cbn [player_id board].
    split_and!; [done|apply generateBoard_wf|apply columns_ok_generateBoard].
  - unfold join_room in Hstep.
    destruct (games !! roomId) as [game|] eqn:Hgame; [|by simplify_eq].
    destruct (started game); simplify_eq; [done|].
    apply registry_ok_insert; [done|].
    apply room_ok_insert_player;
      [by apply Hok|done|cbn [board]; apply generateBoard_wf
       |cbn [board]; apply columns_ok_generateBoard].
  - unfold start_game in Hstep.
    destruct (games !! roomId) as [game|] eqn:Hgame; [|by simplify_eq].
    case_bool_decide; simplify_eq; [done|].
    apply registry_ok_insert; [done|].
    destruct (Hok _ _ Hgame) as (Hid & Hne & _ & Hplayers).
    split_and!; [done|done|split; constructor|done].
  - destruct (games !! roomId) as [game|] eqn:Hgame.
    + destruct (call_number_step games roomId game sid g Hgame)
        as [[msg Hcall]|(n & _ & Hn & Hnew & Hcall)];
        rewrite Hcall in Hstep; simplify_eq; [done|].
      apply registry_ok_insert; [done|].
      destruct (Hok _ _ Hgame) as (Hid & Hne & Hcalled & Hplayers).
      split_and!; [done|done|by apply called_ok_snoc|done].
    + unfold call_number in Hstep. rewrite Hgame in Hstep. by simplify_eq.
  - unfold mark_cell in Hstep.
    destruct (games !! roomId) as [game|] eqn:Hgame; [|by simplify_eq].
    destruct (players game !! sid) as [player|] eqn:Hplayer;
      [|by simplify_eq].
    destruct (index (board player) row) as [r|] eqn:Hr; [|by simplify_eq].
    destruct (mjoin (index r col)) as [cell|] eqn:Hcell; simplify_eq; [|done].
    apply registry_ok_insert; [done|].
    destruct (Hok _ _ Hgame) as (Hid & Hne & Hcalled & Hplayers).
    destruct (Hplayers _ _ Hplayer) as (Hpid & Hwf & Hcols).
    apply room_ok_insert_player; [by apply Hok|done| |].
    + cbn [board set_board]. by apply board_wf_set_cell.
    + cbn [board set_board]. apply columns_ok_set_markedBy; [|done].
      by eapply index_get_cell.
  - unfold claim_bingo in Hstep.
    destruct (games !! roomId) as [game|] eqn:Hgame; [|by simplify_eq].
    destruct (players game !! sid) as [player|] eqn:Hplayer;
      [|by simplify_eq].
    destruct (hasBingo sid (board player)) as [[|]|]; simplify_eq;
      [|done|done].
    apply registry_ok_insert; [done|].
    destruct (Hok _ _ Hgame) as (Hid & Hne & Hcalled & Hplayers).
    by split_and!.
  - assert (games' = (disconnect sid games).1) as -> by (by rewrite Hstep).
    intros rid game' Hlook.
    pose proof Hlook as Hlook'.
    apply disconnect_remaining in Hlook as (game & Hgame & ->).
    destruct (Hok _ _ Hgame) as (Hid & Hne & Hcalled & Hplayers).
    split_and!; [done| |done|].
    + rewrite lookup_disconnect, Hgame in Hlook'. simpl in Hlook'.
      cbn [players set_players].
      destruct (players game !! sid) eqn:Hsid.
      * case_bool_decide as Hsize; [done|].
        by apply map_size_non_empty_iff.
      * by rewrite delete_id.
    + intros sid' p Hp. cbn [players set_players] in Hp.
      apply lookup_delete_Some in Hp as [_ Hp]. by apply Hplayers.
Qed.

Lemma reachable_registry_ok games : reachable games → registry_ok games.
Proof.
  induction 1 as [|a games games' ack _ IH Hstep].
  - intros rid game Hlook. by rewrite lookup_empty in Hlook.
  - by eapply handle_registry_ok.
Qed.

(** The flags of a room under one event. *)
Lemma handle_keeps_flags a games games' out roomId game game' :
  handle a games = (games', out) →
  games !! roomId = Some game → games' !! roomId = Some game' →
  (∀ sid name g, a ≠ CreateRoom sid name roomId g) →
  game_id game' = game_id game ∧ hostId game' = hostId game ∧
  (started game = true → started game' = true) ∧
  (is_Some (winnerId game) → is_Some (winnerId game')).
Proof.
  intros Hstep Hgame Hgame' Hcreate. destruct a; cbn [handle] in Hstep.
  - unfold create_room in Hstep. simplify_eq.
    rewrite lookup_insert in Hgame'. case_decide; simplify_eq; [|done].
    exfalso. by eapply Hcreate.
  - unfold join_room in Hstep.
    destruct (games !! roomId0) as [game0|] eqn:Hgame0; [|by simplify_eq].
    destruct (started game0); simplify_eq; [done|].
    rewrite lookup_insert in Hgame'. case_decide; by simplify_eq.
  - unfold start_game in Hstep.
    destruct (games !! roomId0) as [game0|] eqn:Hgame0; [|by simplify_eq].
    case_bool_decide; simplify_eq; [done|].
    rewrite lookup_insert in Hgame'. case_decide; by simplify_eq.
  - destruct (games !! roomId0) as [game0|] eqn:Hgame0.
    + destruct (call_number_step games roomId0 game0 sid g Hgame0)
        as [[msg Hcall]|(n & _ & Hn & Hnew & Hcall)];
        rewrite Hcall in Hstep; simplify_eq; [done|].
      rewrite lookup_insert in Hgame'. case_decide; by simplify_eq.
    + unfold call_number in Hstep. rewrite Hgame0 in Hstep. by simplify_eq.
  - unfold mark_cell in Hstep.
    destruct (games !! roomId0) as [game0|] eqn:Hgame0; [|by simplify_eq].
    destruct (players game0 !! sid) as [player|] eqn:Hplayer;
      [|by simplify_eq].
    destruct (index (board player) row) as [r|]; [|by simplify_eq].
    destruct (mjoin (index r col)) as [cell|]; simplify_eq; [|done].
    rewrite lookup_insert in Hgame'. case_decide; by simplify_eq.
  - unfold claim_bingo in Hstep.
    destruct (games !! roomId0) as [game0|] eqn:Hgame0; [|by simplify_eq].
    destruct (players game0 !! sid) as [player|] eqn:Hplayer;
      [|by simplify_eq].
    destruct (hasBingo sid (board player)) as [[|]|] eqn:Hcheck;
      simplify_eq; [|done|done].
    rewrite lookup_insert in Hgame'. case_decide; simplify_eq; [|done].
    split_and!; [done..|]. intros _. by eexists.
  - assert (games' = (disconnect sid games).1) as -> by (by rewrite Hstep).
    apply disconnect_remaining in Hgame' as (game0 & Hgame0 & ->).
    by simplify_eq.
Qed.
End RegistryInvariant.

(** X15.  In every registry the server can reach, each room is registered
    under its own id, has at least one player, and has distinct called
    numbers of 1..75; each player is stored under its own id and its board is
    a full 5x5 board whose column [c] holds five distinct numbers of
    [15c+1 .. 15c+15]. *)
Theorem reachable_rooms_consistent
    (games : gmap string Game) (roomId : string) (game : Game) :
  reachable games →
  games !! roomId = Some game →
  game_id game = roomId ∧
  players game ≠ ∅ ∧
  NoDup (calledNumbers game) ∧
  Forall (λ n, 1 ≤ n ≤ 75) (calledNumbers game) ∧
  ∀ sid p, players game !! sid = Some p →
    player_id p = sid ∧ board_wf (board p) ∧ columns_ok (board p).
Proof.
  intros Hreach Hgame.
  destruct (reachable_registry_ok games Hreach roomId game Hgame)
    as (Hid & Hne & [Hnd Hrange] & Hplayers).
  done.
Qed.

Lemma reachable_rooms_consistent_witness :
  game_id (default no_game (alice_won !! "k3x9qa")) = "k3x9qa" ∧
  players (default no_game (alice_won !! "k3x9qa")) ≠ ∅ ∧
  NoDup (calledNumbers (default no_game (alice_won !! "k3x9qa"))) ∧
  Forall (λ n, 1 ≤ n ≤ 75)
    (calledNumbers (default no_game (alice_won !! "k3x9qa"))) ∧
  ∀ sid p, players (default no_game (alice_won !! "k3x9qa")) !! sid = Some p →
    player_id p = sid ∧ board_wf (board p) ∧ columns_ok (board p).
Proof.
  apply (reachable_rooms_consistent alice_won "k3x9qa").
  - apply alice_won_reachable.
  - vm_compute. reflexivity.
Defined.

(** X16.  No event other than a create-room that draws the room's own code
    changes the id or the host of a registered room, resets its [started]
    flag or clears its recorded winner; in particular start-game on a room
    that already has a winner keeps the winner. *)
Theorem room_flags_persist
    (a : Action) (games games' : gmap string Game) (out : result Ack)
    (roomId : string) (game game' : Game) :
  handle a games = (games', out) →
  games !! roomId = Some game → games' !! roomId = Some game' →
  (∀ sid name g, a ≠ CreateRoom sid name roomId g) →
  game_id game' = game_id game ∧ hostId game' = hostId game ∧
  (started game = true → started game' = true) ∧
  (is_Some (winnerId game) → is_Some (winnerId game')).
Proof. apply handle_keeps_flags. Qed.

Lemma room_flags_persist_witness :
  game_id (started_game (default no_game (alice_won !! "k3x9qa")))
  = game_id (default no_game (alice_won !! "k3x9qa")) ∧
  hostId (started_game (default no_game (alice_won !! "k3x9qa")))
  = hostId (default no_game (alice_won !! "k3x9qa")) ∧
  (started (default no_game (alice_won !! "k3x9qa")) = true →
   started (started_game (default no_game (alice_won !! "k3x9qa"))) = true) ∧
  (is_Some (winnerId (default no_game (alice_won !! "k3x9qa"))) →
   is_Some
     (winnerId (started_game (default no_game (alice_won !! "k3x9qa"))))).
Proof.
  apply (room_flags_persist (StartGame "alice" "k3x9qa") alice_won
           (handle (StartGame "alice" "k3x9qa") alice_won).1
           (handle (StartGame "alice" "k3x9qa") alice_won).2
           "k3x9qa").
  - vm_compute. reflexivity.
  - vm_compute. reflexivity.
  - vm_compute. reflexivity.
  - intros sid name g. discriminate.
Defined.

(** ** Claims that fail, and play after a win *)

Section AfterWin.
Implicit Types (games : gmap string Game) (sid roomId : string).

Lemma claim_bingo_without_line games roomId game sid player :
  games !! roomId = Some game →
  players game !! sid = Some player →
  board_wf (board player) →
  ¬ wins sid (board player) →
  claim_bingo sid roomId games = (games, Ok (AckError "Not a valid bingo")).
Proof.
  intros Hgame Hplayer Hwf Hlose.
  destruct (hasBingo_wf sid (board player) Hwf) as (w & Hcheck & Hspec).
  rewrite (claim_bingo_answer _ _ _ _ _ _ Hgame Hplayer Hcheck).
  destruct w; [|done]. destruct Hlose. by apply Hspec.
Qed.

Lemma start_game_with_winner w sid roomId games :
  start_game sid roomId (with_winner w roomId games)
  = (with_winner w roomId (start_game sid roomId games).1,
     (start_game sid roomId games).2).
Proof.
  unfold start_game, with_winner. rewrite lookup_alter_eq.
  destruct (games !! roomId) as [game|] eqn:Hgame; [|done].
  cbn [fmap option_fmap option_map hostId set_winnerId].
  case_bool_decide; [done|].
  cbn [fst snd]. f_equal.
  by rewrite insert_alter_eq, alter_insert_eq.
Qed.

Lemma call_number_with_winner w sid roomId g games :
  call_number sid roomId g (with_winner w roomId games)
  = (with_winner w roomId (call_number sid roomId g games).1,
     (call_number sid roomId g games).2).
Proof.
  unfold call_number, with_winner. rewrite lookup_alter_eq.
  destruct (games !! roomId) as [game|] eqn:Hgame; [|done].
  cbn [fmap option_fmap option_map hostId set_winnerId].
  case_bool_decide; [done|].
  change (availableNumbers (set_winnerId game w))
    with (availableNumbers game).
  case_bool_decide; [done|].
  destruct (availableNumbers game !! _) as [n|]; [|done].
  cbn [fst snd]. f_equal.
  by rewrite insert_alter_eq, alter_insert_eq.
Qed.

Lemma mark_cell_with_winner w sid roomId row col games :
  mark_cell sid roomId row col (with_winner w roomId games)
  = (with_winner w roomId (mark_cell sid roomId row col games).1,
     (mark_cell sid roomId row col games).2).
Proof.
  unfold mark_cell, with_winner. rewrite lookup_alter_eq.
  destruct (games !! roomId) as [game|] eqn:Hgame; [|done].
  cbn [fmap option_fmap option_map players set_winnerId].
  destruct (players game !! sid) as [player|]; [|done].
  destruct (index (board player) row) as [r|]; [|done].
  destruct (mjoin (index r col)) as [cell|]; [|done].
  cbn [fst snd]. f_equal.
  by rewrite insert_alter_eq, alter_insert_eq.
Qed.
End AfterWin.

(** X17.  A claim-bingo by a player whose full board has no complete line
    is answered with "Not a valid bingo" and changes nothing in the
    registry; a winner recorded earlier stays recorded. *)
Theorem failed_claim_changes_nothing
    (games : gmap string Game) (roomId sid : string)
    (game : Game) (player : Player) :
  games !! roomId = Some game →
  players game !! sid = Some player →
  board_wf (board player) →
  ¬ wins sid (board player) →
  claim_bingo sid roomId games = (games, Ok (AckError "Not a valid bingo")).
Proof. apply claim_bingo_without_line. Qed.

Lemma failed_claim_changes_nothing_witness :
  claim_bingo "bob" "k3x9qa" lobby
  = (lobby, Ok (AckError "Not a valid bingo")).
Proof.
  apply (failed_claim_changes_nothing lobby "k3x9qa" "bob" lobby_game
           lobby_bob).
  - vm_compute. reflexivity.
  - vm_compute. reflexivity.
  - by_computation.
  - intros Hwins.
    assert (hasBingo "bob" (board lobby_bob) = Ok false) as Hcheck
      by (vm_compute; reflexivity).
    destruct (hasBingo_wf "bob" (board lobby_bob) ltac:(by_computation))
      as (w & Hw & Hspec).
    rewrite Hcheck in Hw. injection Hw as <-.
    apply Hspec in Hwins. discriminate Hwins.
Defined.

(** X18.  The game goes on after a win: start-game, call-number and
    mark-cell never read [winnerId].  Whatever winner is recorded in the
    room, each of them gives the same answer and the same registry up to
    that field. *)
Theorem play_continues_after_win
    (w : option string) (sid roomId : string) (g : Rng) (row col : Z)
    (games : gmap string Game) :
  start_game sid roomId (with_winner w roomId games)
  = (with_winner w roomId (start_game sid roomId games).1,
     (start_game sid roomId games).2) ∧
  call_number sid roomId g (with_winner w roomId games)
  = (with_winner w roomId (call_number sid roomId g games).1,
     (call_number sid roomId g games).2) ∧
  mark_cell sid roomId row col (with_winner w roomId games)
  = (with_winner w roomId (mark_cell sid roomId row col games).1,
     (mark_cell sid roomId row col games).2).
Proof.
  split_and!.
  - apply start_game_with_winner.
  - apply call_number_with_winner.
  - apply mark_cell_with_winner.
Qed.
